(** * Stain area calculator (punto_4): binarizer, point sampler, estimator

    A shallow embedding of

      - [upload-image.component.ts]: [convertToBinary], [generateRandomPoints];
      - [calculation.service.ts]: [overlayImage], [getPointsInside],
        [getResults], [addResult].

    JavaScript numbers are IEEE binary64 values, modelled by Rocq's primitive
    floats; pixel buffers ([Uint8ClampedArray]) are lists of bytes indexed as
    the code indexes them; the service's [BehaviorSubject] is the list it
    holds; [throw] is an explicit completion. *)

From Stdlib Require Import ZArith Floats Ascii String Lia.
From stdpp Require Import base list.

Set Warnings "-inexact-float".
Local Open Scope Z_scope.

(** ** JavaScript values the code computes with *)

Module JS.

(** A JavaScript [number]. *)
Definition number : Type := float.

(** The [number] an integer denotes: the nearest binary64 value (exact
    below 2^53). *)
Definition number_of_Z (z : Z) : number :=
  SF2Prim (binary_normalize prec emax z 0 false).

(** [array[i]] on a typed array: [undefined] out of range. *)
Definition element (bytes : list Z) (i : nat) : option Z := bytes !! i.

(** [array[i] === v]; [undefined === v] is false. *)
Definition element_is (bytes : list Z) (i : nat) (v : Z) : bool :=
  match element bytes i with
  | Some b => b =? v
  | None => false
  end.

(** What a [throw] carries: [new Error(message)], or a [DOMException] of the
    platform. *)
Inductive exn : Type :=
| Error (message : string)
| DOMException (name : string).

(** How a call ends. *)
Inductive completion (A : Type) : Type :=
| Return (value : A)
| Throw (e : exn).
Arguments Return {A} value.
Arguments Throw {A} e.

(** [Math.floor] of a finite number, as an integer.  The sampler floors
    products of a draw in [0, 1) and a canvas size, which are finite; 0
    stands for the floor of a value that is not. *)
Definition Math_floor (f : number) : Z :=
  match Prim2SF f with
  | S754_finite s m e =>
      let mz := if s then Z.neg m else Z.pos m in
      if 0 <=? e then mz * 2 ^ e else mz / 2 ^ (- e)
  | _ => 0
  end.

(** [Number(x.toFixed(4))]. [toFixed] picks the integer [n] with [n / 10^4]
    nearest to [x] (the larger one on a tie) and prints its digits; [Number]
    reads the decimal back as the nearest binary64 value.  From 1e21 on,
    [toFixed] prints [x] itself. *)
Definition toFixed4 (x : number) : number :=
  match Prim2SF x with
  | S754_finite s m e =>
      if (1e21 <=? abs x)%float then x
      else
        let n := if 0 <=? e then Z.pos m * 2 ^ e * 10000
                 else (2 * Z.pos m * 10000 + 2 ^ (- e)) / 2 ^ (1 - e) in
        let q := (number_of_Z n / 10000)%float in
        if s then (- q)%float else q
  | S754_zero _ => 0%float
  | _ => x
  end.

End JS.

(** [interface Point { x: number; y: number }].  The sampler stores
    [Math.floor] of a finite product, so the coordinates are integers. *)
Record Point : Type := { x : Z; y : Z }.

(** ** upload-image.component.ts *)

Module UploadImage.
Import JS.

(** [0.3 * R + 0.59 * G + 0.11 * B], evaluated left to right in binary64. *)
Definition grayscale (r g b : number) : number :=
  (0.3 * r + 0.59 * g + 0.11 * b)%float.

(** [grayscale > 128 ? 255 : 0]. *)
Definition binaryValue (gs : number) : Z :=
  if (128 <? gs)%float then 255 else 0.

(** The luminance the loop body computes at offset [i].  A read past the
    end is [undefined], whose product is NaN, and NaN absorbs the sum. *)
Definition grayscale_at (binaryData : list Z) (i : nat) : number :=
  match element binaryData i, element binaryData (i + 1),
        element binaryData (i + 2) with
  | Some r, Some g, Some b =>
      grayscale (number_of_Z r) (number_of_Z g) (number_of_Z b)
  | _, _, _ => nan
  end.

(** One turn of the loop of [convertToBinary].  The chained assignment
    stores right to left; a store past the end of a typed array is
    dropped. *)
Definition binarize_step (i : nat) (binaryData : list Z) : list Z :=
  let v := binaryValue (grayscale_at binaryData i) in
  <[(i + 3)%nat := 255]>
    (<[i := v]> (<[(i + 1)%nat := v]> (<[(i + 2)%nat := v]> binaryData))).

(** [for (let i = 0; i < binaryData.length; i += 4) ...]. *)
Fixpoint binarize_loop (fuel i : nat) (binaryData : list Z) : list Z :=
  match fuel with
  | O => binaryData
  | S fuel' =>
      if (i <? length binaryData)%nat
      then binarize_loop fuel' (i + 4) (binarize_step i binaryData)
      else binaryData
  end.

(** The bytes [convertToBinary] puts back on the canvas, from the bytes
    [getImageData] read off it. *)
Definition convertToBinary (imageData : list Z) : list Z :=
  binarize_loop (length imageData) 0 imageData.

(** The same pass read pixel by pixel: what the loop leaves of a buffer,
    four bytes at a time, with the short tail a buffer that is not a whole
    number of pixels would have.  [convertToBinary_pixels] below proves the
    loop computes it. *)
Fixpoint binarize_pixels (bytes : list Z) : list Z :=
  match bytes with
  | r :: g :: b :: a :: rest =>
      let v := binaryValue
                 (grayscale (number_of_Z r) (number_of_Z g) (number_of_Z b)) in
      v :: v :: v :: 255 :: binarize_pixels rest
  | [r; g; b] =>
      let v := binaryValue
                 (grayscale (number_of_Z r) (number_of_Z g) (number_of_Z b)) in
      [v; v; v]
  | [_; _] => [0; 0]
  | [_] => [0]
  | [] => []
  end.

(** A mask of opaque white ([true]) and opaque black ([false]) pixels. *)
Definition mask_bytes (mask : list bool) : list Z :=
  flat_map (fun white : bool =>
              if white then [255; 255; 255; 255] else [0; 0; 0; 255]) mask.

Section Sampler.
(** [Math.random]: the value of the [k]-th call made by one run of
    [generateRandomPoints]. *)
Variable Math_random : nat -> number.
(** [this.canvasRef.nativeElement.width] and [.height]. *)
Variables width height : N.

(** [for (let i = 0; i < n; i++) points.push({ x: ..., y: ... })];
    [draws] counts the calls of [Math.random] so far. *)
Fixpoint generate_loop (fuel : nat) (i n : Z) (draws : nat)
    (points : list Point) : list Point :=
  match fuel with
  | O => points
  | S fuel' =>
      if i <? n
      then
        let px := Math_floor
                    (Math_random draws * number_of_Z (Z.of_N width))%float in
        let py := Math_floor
                    (Math_random (draws + 1) * number_of_Z (Z.of_N height))%float in
        generate_loop fuel' (i + 1) n (draws + 2)
          (points ++ [ {| x := px; y := py |} ])
      else points
  end.

(** [generateRandomPoints(n)], for an integer count [n] (the slider's
    [parseInt], or the default 100): the function has no [throw]. *)
Definition generateRandomPoints (n : Z) : completion (list Point) :=
  Return (generate_loop (Z.to_nat n) 0 n 0 []).
End Sampler.

End UploadImage.

(** ** The canvas of the platform

    The service draws on a [<canvas>] and reads its pixels back.  The canvas
    is the browser's, not the repository's: its pixel grid is modelled
    row-major, and what a marker does to a pixel is a parameter. *)

Module Canvas.
Import JS.

(** One pixel: red, green, blue, alpha, each in 0..255. *)
Definition rgba : Type := (Z * Z * Z * Z)%type.

Definition transparent : rgba := (0, 0, 0, 0).
Definition red : rgba := (255, 0, 0, 255).
Definition black : rgba := (0, 0, 0, 255).

Definition bytes_of (p : rgba) : list Z :=
  let '(r, g, b, a) := p in [r; g; b; a].

(** [HTMLImageElement]: [width], [height], and the decoded pixels
    (row-major, [width * height] of them) that [drawImage] copies. *)
Record HTMLImageElement : Type :=
  { width : N; height : N; bitmap : list rgba }.

(** [ImageData]: the pixels [getImageData] returned. *)
Record ImageData : Type := { pixels : list rgba }.

(** [imageData.data]: four bytes per pixel. *)
Definition data (d : ImageData) : list Z := flat_map bytes_of (pixels d).

(** The two canvases a call of [getResults] creates. *)
Inductive canvas_site : Type := OverlayCanvas | ExportCanvas.

(** What the platform decides: whether [getContext('2d')] yields a context
    on a canvas, and the colour of pixel [(px, py)] after
    [beginPath(); arc(p.x, p.y, 4, 0, 2 * Math.PI); fill(); stroke()] with
    fill and stroke style [rgba(255, 0, 0)] and line width 2, from its
    colour before. *)
Record Browser : Type :=
  { getContext2d : canvas_site -> bool;
    marker : Point -> Z -> Z -> rgba -> rgba }.

(** The canvas after [canvas.width = w; canvas.height = h;
    ctx.drawImage(image, 0, 0)]: exactly [w * h] pixels, those of the image
    over transparent black. *)
Definition drawImage (image : HTMLImageElement) : list rgba :=
  resize (N.to_nat (width image * height image)) transparent (bitmap image).

(** One turn of [points.forEach]: every pixel of the canvas (of width [w])
    goes through the marker drawn at [p]. *)
Definition drawPoint (b : Browser) (w : N) (canvas : list rgba) (p : Point)
    : list rgba :=
  imap (fun k c => marker b p (Z.of_nat k mod Z.of_N w)
                              (Z.of_nat k / Z.of_N w) c) canvas.

(** [ctx.getImageData(0, 0, w, h)]: an [IndexSizeError] when [w] or [h]
    is zero. *)
Definition getImageData (canvas : list rgba) (w h : N)
    : completion ImageData :=
  if ((w =? 0) || (h =? 0))%N
  then Throw (DOMException "IndexSizeError")
  else Return {| pixels := canvas |}.

(** A reference rasterizer with no anti-aliasing: the marker turns a pixel
    pure red when the whole pixel square lies inside the filled disc of
    radius 4, and leaves every other pixel as it was. *)
Definition inside_fill (p : Point) (px py : Z) : bool :=
  let dx := Z.max (Z.abs (px - x p)) (Z.abs (px + 1 - x p)) in
  let dy := Z.max (Z.abs (py - y p)) (Z.abs (py + 1 - y p)) in
  dx * dx + dy * dy <=? 4 * 4.

Definition fill_core (p : Point) (px py : Z) (c : rgba) : rgba :=
  if inside_fill p px py then red else c.

Definition reference_browser : Browser :=
  {| getContext2d := fun _ => true; marker := fill_core |}.

End Canvas.

(** ** calculation.service.ts *)

(** [interface CalculationInput]: either field may be missing at run time,
    which [getResults] tests for. *)
Module CalculationInput.
Record t : Type :=
  { points : option (list Point);
    image : option Canvas.HTMLImageElement }.
End CalculationInput.

(** [interface CalculationResult]. *)
Module CalculationResult.
Record t : Type :=
  { area : JS.number;
    points : list Point;
    originalImage : Canvas.HTMLImageElement;
    modifiedImage : Canvas.HTMLImageElement }.
End CalculationResult.

Module CalculationService.
Import JS Canvas.

(** The value of [private results = new BehaviorSubject<CalculationResult[]>([])]. *)
Definition state : Type := list CalculationResult.t.

Definition initial : state := [].

(** A method of the service: it runs from a state of [results] and ends in
    a completion and a state; a [throw] keeps the state reached so far. *)
Definition M (A : Type) : Type := state -> completion A * state.

Definition ret {A} (a : A) : M A := fun s => (Return a, s).
Definition throw {A} (e : exn) : M A := fun s => (Throw e, s).
Definition bind {A B} (m : M A) (k : A -> M B) : M B :=
  fun s =>
    match m s with
    | (Return a, s') => k a s'
    | (Throw e, s') => (Throw e, s')
    end.
(** A step that does not touch [results]. *)
Definition lift {A} (c : completion A) : M A := fun s => (c, s).
(** [this.results.value] and [this.results.next(v)]. *)
Definition value : M state := fun s => (Return s, s).
Definition next (v : state) : M unit := fun _ => (Return tt, v).

Notation "x <- m ;; k" := (bind m (fun x => k))
  (at level 90, m at next level, right associativity).
Notation "m ;;; k" := (bind m (fun _ => k))
  (at level 90, right associativity).

Section WithBrowser.
Variable browser : Browser.

(** [overlayImage(image, points)]: the pair
    [{ overlayImageData, originalImageData }]. *)
Definition overlayImage (image : HTMLImageElement) (points : list Point)
    : completion (ImageData * ImageData) :=
  if getContext2d browser OverlayCanvas then
    let canvas := drawImage image in
    match getImageData canvas (width image) (height image) with
    | Throw e => Throw e
    | Return originalImageData =>
        let canvas' := fold_left (drawPoint browser (width image)) points canvas in
        match getImageData canvas' (width image) (height image) with
        | Throw e => Throw e
        | Return overlayImageData =>
            Return (overlayImageData, originalImageData)
        end
    end
  else Throw (Error "Could not get canvas context").

(** The test of the loop of [getPointsInside]: black in the original,
    red in the overlay. *)
Definition black_and_red (original overlay : list Z) (i : nat) : bool :=
  element_is original i 0 &&
  element_is original (i + 1) 0 &&
  element_is original (i + 2) 0 &&
  element_is overlay i 255 &&
  element_is overlay (i + 1) 0 &&
  element_is overlay (i + 2) 0.

(** [for (let i = 0; i < overlayImageData.data.length; i += 4) ...]. *)
Fixpoint count_loop (fuel i : nat) (original overlay : list Z)
    (pointsInside : Z) : Z :=
  match fuel with
  | O => pointsInside
  | S fuel' =>
      if (i <? length overlay)%nat
      then count_loop fuel' (i + 4) original overlay
             (if black_and_red original overlay i
              then pointsInside + 1 else pointsInside)
      else pointsInside
  end.

(** [getPointsInside(points, image)]: [{ overlayImageData, pointsInside }]. *)
Definition getPointsInside (points : list Point) (image : HTMLImageElement)
    : completion (ImageData * Z) :=
  match overlayImage image points with
  | Throw e => Throw e
  | Return (overlayImageData, originalImageData) =>
      let pointsInside :=
        count_loop (length (data overlayImageData)) 0
          (data originalImageData) (data overlayImageData) 0 in
      Return (overlayImageData, pointsInside)
  end.

(** [addResult(result)]. *)
Definition addResult (result : CalculationResult.t) : M unit :=
  v <- value ;; next (v ++ [result]).

(** [data.image.width * data.image.height]. *)
Definition totalArea (image : HTMLImageElement) : number :=
  (number_of_Z (Z.of_N (width image)) * number_of_Z (Z.of_N (height image)))%float.

(** [Number((totalArea * (pointsInside / totalPoints)).toFixed(4))]. *)
Definition estimatedArea (totalArea : number) (pointsInside : Z)
    (totalPoints : nat) : number :=
  toFixed4 (totalArea * (number_of_Z pointsInside
                         / number_of_Z (Z.of_nat totalPoints)))%float.

(** [getResults(data)]; the observable it returns is read as the list
    [results] holds at that moment. *)
Definition getResults (data : CalculationInput.t) : M state :=
  match CalculationInput.image data with
  | None => throw (Error "Image is required for calculation")
  | Some image =>
      match CalculationInput.points data with
      | None => throw (Error "At least 3 points are required for calculation")
      | Some points =>
          if (length points <? 3)%nat
          then throw (Error "At least 3 points are required for calculation")
          else
            r <- lift (getPointsInside points image) ;;
            let '(overlayImageData, pointsInside) := r in
            let totalPoints := length points in
            let estimatedArea :=
              estimatedArea (totalArea image) pointsInside totalPoints in
            if getContext2d browser ExportCanvas then
              let overlayImageDataImage :=
                {| width := width image; height := height image;
                   bitmap := pixels overlayImageData |} in
              let result :=
                {| CalculationResult.area := estimatedArea;
                   CalculationResult.points := points;
                   CalculationResult.originalImage := image;
                   CalculationResult.modifiedImage := overlayImageDataImage |} in
              addResult result ;;; value
            else throw (Error "Could not get canvas context")
      end
  end.

(** The public methods of the service, as calls. *)
Inductive call : Type :=
| GetResults (data : CalculationInput.t)
| AddResult (result : CalculationResult.t)
| OverlayImage (image : HTMLImageElement) (points : list Point).

(** The state of [results] after a call. *)
Definition after (c : call) (s : state) : state :=
  match c with
  | GetResults data => snd (getResults data s)
  | AddResult result => snd (addResult result s)
  | OverlayImage image points => snd (lift (overlayImage image points) s)
  end.
End WithBrowser.

(** The errors the spec calls [ValidationError]: the two [Error]s
    [getResults] throws before it computes. *)
Definition is_validation_error {A} (c : completion A) : bool :=
  match c with
  | Throw (Error m) =>
      String.eqb m "Image is required for calculation"
      || String.eqb m "At least 3 points are required for calculation"
  | _ => false
  end.

End CalculationService.

(** ** The classification read pixel by pixel, and inputs to evaluate on *)

Module Estimation.
Import JS Canvas.

(** Exactly (0, 0, 0) in red, green, blue; the loop does not read alpha. *)
Definition is_black (p : rgba) : bool :=
  let '(r, g, b, _) := p in (r =? 0) && (g =? 0) && (b =? 0).

(** Exactly (255, 0, 0) in red, green, blue. *)
Definition is_red (p : rgba) : bool :=
  let '(r, g, b, _) := p in (r =? 255) && (g =? 0) && (b =? 0).

(** The pixels that are black in [original] and red at the same place in
    [overlay].  [count_loop_pixels] below proves the loop of
    [getPointsInside] counts them. *)
Fixpoint count_pixels (original overlay : list rgba) : Z :=
  match original, overlay with
  | o :: original', v :: overlay' =>
      (if is_black o && is_red v then 1 else 0) + count_pixels original' overlay'
  | _, _ => 0
  end.

(** The pixels of a list that are black. *)
Fixpoint count_black (original : list rgba) : Z :=
  match original with
  | o :: original' => (if is_black o then 1 else 0) + count_black original'
  | [] => 0
  end.

(** [pointsInside] of what [getPointsInside] returned. *)
Definition pointsInside_of (c : completion (ImageData * Z)) : option Z :=
  match c with
  | Return (_, pointsInside) => Some pointsInside
  | Throw _ => None
  end.

(** The [area] of the result a run of [getResults] appended. *)
Definition appended_area (before : list CalculationResult.t)
    (run : completion CalculationService.state * list CalculationResult.t)
    : option number :=
  match snd run !! length before with
  | Some result => Some (CalculationResult.area result)
  | None => None
  end.

(** A [w] x [h] image whose every pixel is [c]. *)
Definition uniform_image (w h : N) (c : rgba) : HTMLImageElement :=
  {| width := w; height := h; bitmap := replicate (N.to_nat (w * h)) c |}.

Definition centre : Point := {| x := 5; y := 5 |}.

(** What every rasterizer does with an opaque red marker: a pixel wholly
    inside the filled disc comes out pure red, and a pure red pixel stays
    pure red under any further marker. *)
Definition paints_core (b : Browser) : Prop :=
  (forall (p : Point) (px py : Z) (c : rgba),
      inside_fill p px py = true -> is_red (marker b p px py c) = true) /\
  (forall (p : Point) (px py : Z) (c : rgba),
      is_red c = true -> is_red (marker b p px py c) = true).

(** [c'] is pure red wherever [c] is. *)
Definition at_least_as_red (c c' : rgba) : Prop :=
  is_red c = true -> is_red c' = true.

End Estimation.

(** ** Pixels and bytes of a mask *)

Module BinaryMask.
Import JS Canvas UploadImage.

Definition white : rgba := (255, 255, 255, 255).

(** What one pass of the loop of [convertToBinary] makes of one pixel. *)
Definition binarize_pixel (p : rgba) : rgba :=
  let '(r, g, b, _) := p in
  let v := binaryValue
             (grayscale (number_of_Z r) (number_of_Z g) (number_of_Z b)) in
  (v, v, v, 255).

(** The pixel with another alpha. *)
Definition with_alpha (alpha : Z) (p : rgba) : rgba :=
  let '(r, g, b, _) := p in (r, g, b, alpha).

(** A hundred times the luminance, in exact arithmetic. *)
Definition luminance100 (r g b : Z) : Z := 30 * r + 59 * g + 11 * b.

(** The values a byte takes. *)
Definition byte_values : list Z := map Z.of_nat (seq 0 256).

(** For the red and green bytes [r] and [g]: if a blue byte brings the exact
    luminance to 128, the binary64 luminance of that pixel is not above
    128. *)
Definition boundary_is_stain (r g : Z) : bool :=
  let n := 12800 - 30 * r - 59 * g in
  let b := n / 11 in
  if (n mod 11 =? 0) && (0 <=? b) && (b <=? 255)
  then negb (128 <? grayscale (number_of_Z r) (number_of_Z g) (number_of_Z b))%float
  else true.

(** [putImageData(new ImageData(bytes, w, h), 0, 0)]: the pixels the canvas
    holds after the bytes are put on it, four bytes to a pixel. *)
Fixpoint pixels_of_bytes (bytes : list Z) : list rgba :=
  match bytes with
  | r :: g :: b :: a :: rest => (r, g, b, a) :: pixels_of_bytes rest
  | _ => []
  end.

(** Two pixels with the same red, green and blue. *)
Definition same_colour (p q : rgba) : Prop :=
  let '(r, g, b, _) := p in
  let '(r', g', b', _) := q in
  r = r' /\ g = g' /\ b = b'.

End BinaryMask.

(** ** The points of a sample, and runs of service calls *)

Module SamplePlan.
Import JS.

(** The point [generateRandomPoints] computes from the draw numbered [d] and
    the next one: [x] first, then [y]. *)
Definition point_at (Math_random : nat -> number) (width height : N)
    (d : nat) : Point :=
  {| x := Math_floor (Math_random d * number_of_Z (Z.of_N width))%float;
     y := Math_floor (Math_random (d + 1)%nat * number_of_Z (Z.of_N height))%float |}.

End SamplePlan.

Module ServiceRuns.
Import Canvas CalculationService.

(** The state of [results] after a sequence of calls, in order. *)
Definition run (b : Browser) (calls : list call) (s : state) : state :=
  fold_left (fun s' c => after b c s') calls s.

End ServiceRuns.

(** ** carousel.component.ts *)

Module Carousel.

(** The values [currentIndex] takes: a JavaScript number that is an integer
    (below 2^53 in size, where the arithmetic of the component is exact), or
    NaN. *)
Inductive index : Type :=
| Int (z : Z)
| NaN.

(** [a + b], [a - b] and [a % b] on such numbers.  The remainder has the
    sign of the dividend, and is NaN when the divisor is 0. *)
Definition plus (a b : index) : index :=
  match a, b with
  | Int m, Int n => Int (m + n)
  | _, _ => NaN
  end.

Definition minus (a b : index) : index :=
  match a, b with
  | Int m, Int n => Int (m - n)
  | _, _ => NaN
  end.

Definition remainder (a b : index) : index :=
  match a, b with
  | Int m, Int n => if n =? 0 then NaN else Int (Z.rem m n)
  | _, _ => NaN
  end.

(** The fields of [CarouselComponent]. *)
Record t : Type := { images : list string; currentIndex : index }.

(** [this.images.length]. *)
Definition images_length (c : t) : index := Int (Z.of_nat (length (images c))).

(** [prevSlide()]. *)
Definition prevSlide (c : t) : t :=
  {| images := images c;
     currentIndex :=
       remainder (plus (minus (currentIndex c) (Int 1)) (images_length c))
                 (images_length c) |}.

(** [nextSlide()]. *)
Definition nextSlide (c : t) : t :=
  {| images := images c;
     currentIndex :=
       remainder (plus (currentIndex c) (Int 1)) (images_length c) |}.

(** [goToSlide(index)]. *)
Definition goToSlide (i : index) (c : t) : t :=
  {| images := images c; currentIndex := i |}.

(** [currentIndex] is the position of one of the images. *)
Definition in_range (c : t) : Prop :=
  exists i : Z,
    currentIndex c = Int i /\ 0 <= i < Z.of_nat (length (images c)).

End Carousel.

(** ** app.component.ts *)

Module AppComponent.

(** ['upload' | 'calculate']. *)
Inductive Tab : Type := upload | calculate.

Definition tab_name (tab : Tab) : string :=
  match tab with
  | upload => "upload"%string
  | calculate => "calculate"%string
  end.

(** The field [currentTab]; the cast in the router subscription lets it
    hold any string. *)
Record t : Type := { currentTab : string }.

Definition initial : t := {| currentTab := "upload"%string |}.

(** [s.split(sep)] for a one-character separator. *)
Fixpoint split (sep : Ascii.ascii) (s : string) : list string :=
  match s with
  | EmptyString => [EmptyString]
  | String c s' =>
      if Ascii.eqb c sep then EmptyString :: split sep s'
      else
        match split sep s' with
        | first :: rest => String c first :: rest
        | [] => [String c EmptyString]
        end
  end.

(** The body of the subscription to [router.events], run with
    [this.router.url] equal to [url]: [undefined] and the empty string are
    falsy. *)
Definition onRouterEvent (url : string) (c : t) : t :=
  match split "/"%char url !! 1%nat with
  | Some currentRoute =>
      if String.eqb currentRoute ""%string then c
      else {| currentTab := currentRoute |}
  | None => c
  end.

(** [setTab(tab)]: the component after the call, and the URL it asks the
    router for. *)
Definition setTab (tab : Tab) (c : t) : t * string :=
  ({| currentTab := tab_name tab |}, String.append "/"%string (tab_name tab)).

(** [isActive(tab)]. *)
Definition isActive (tab : string) (c : t) : bool :=
  String.eqb (currentTab c) tab.

(** The string has no ['/']. *)
Fixpoint no_slash (s : string) : bool :=
  match s with
  | EmptyString => true
  | String c s' => negb (Ascii.eqb c "/"%char) && no_slash s'
  end.

End AppComponent.

(** ** upload-image.component.ts: the component and its handlers *)

Module UploadImageComponent.
Import JS Canvas UploadImage BinaryMask.

(** The fields of [UploadImageComponent] the handlers read and write, with
    the canvas behind [canvasRef] (its size and pixels) once
    [ngAfterViewInit] has taken its 2D context.  [numberPoints] is an integer
    or, after a [parseInt] that found no number, NaN ([None]). *)
Record t : Type :=
  { canvas_width : N;
    canvas_height : N;
    canvas_pixels : list rgba;
    imageLoaded : bool;
    showButton : bool;
    showSlider : bool;
    numberPoints : option Z;
    points : list Point }.

(** [this.generateRandomPoints(this.numberPoints)] on the canvas of [c];
    with NaN the test [i < n] of the loop is false at once. *)
Definition generate (Math_random : nat -> number) (c : t)
    : completion (list Point) :=
  match numberPoints c with
  | Some n =>
      generateRandomPoints Math_random (canvas_width c) (canvas_height c) n
  | None => Return []
  end.

(** [convertToBinary()] on the component: it reads the canvas with
    [getImageData], binarizes the bytes and puts them back. *)
Definition convertToBinary_canvas (c : t) : completion unit * t :=
  match getImageData (canvas_pixels c) (canvas_width c) (canvas_height c) with
  | Throw e => (Throw e, c)
  | Return imageData =>
      (Return tt,
       {| canvas_width := canvas_width c;
          canvas_height := canvas_height c;
          canvas_pixels := pixels_of_bytes (convertToBinary (data imageData));
          imageLoaded := imageLoaded c;
          showButton := showButton c;
          showSlider := showSlider c;
          numberPoints := numberPoints c;
          points := points c |})
  end.

(** The [img.onload] handler of [onFileSelected]: size the canvas to the
    image, draw it, binarize, show the controls, sample the points. *)
Definition onImageLoad (Math_random : nat -> number) (img : HTMLImageElement)
    (c : t) : completion unit * t :=
  let drawn :=
    {| canvas_width := width img;
       canvas_height := height img;
       canvas_pixels := drawImage img;
       imageLoaded := imageLoaded c;
       showButton := showButton c;
       showSlider := showSlider c;
       numberPoints := numberPoints c;
       points := points c |} in
  match convertToBinary_canvas drawn with
  | (Throw e, c') => (Throw e, c')
  | (Return _, binary) =>
      let shown :=
        {| canvas_width := canvas_width binary;
           canvas_height := canvas_height binary;
           canvas_pixels := canvas_pixels binary;
           imageLoaded := true;
           showButton := true;
           showSlider := true;
           numberPoints := numberPoints binary;
           points := points binary |} in
      match generate Math_random shown with
      | Throw e => (Throw e, shown)
      | Return sampled =>
          (Return tt,
           {| canvas_width := canvas_width shown;
              canvas_height := canvas_height shown;
              canvas_pixels := canvas_pixels shown;
              imageLoaded := true;
              showButton := true;
              showSlider := true;
              numberPoints := numberPoints shown;
              points := sampled |})
      end
  end.

(** [onSliderChange(event)], for the [value] of the slider; [parseInt] is
    the platform's. *)
Definition onSliderChange (parseInt : string -> option Z)
    (Math_random : nat -> number) (value : string) (c : t)
    : completion unit * t :=
  let parsed :=
    {| canvas_width := canvas_width c;
       canvas_height := canvas_height c;
       canvas_pixels := canvas_pixels c;
       imageLoaded := imageLoaded c;
       showButton := showButton c;
       showSlider := showSlider c;
       numberPoints := parseInt value;
       points := points c |} in
  match generate Math_random parsed with
  | Throw e => (Throw e, parsed)
  | Return sampled =>
      (Return tt,
       {| canvas_width := canvas_width parsed;
          canvas_height := canvas_height parsed;
          canvas_pixels := canvas_pixels parsed;
          imageLoaded := imageLoaded parsed;
          showButton := showButton parsed;
          showSlider := showSlider parsed;
          numberPoints := numberPoints parsed;
          points := sampled |})
  end.

(** The navigation state [navigateToCalculate] passes on: the canvas as a
    PNG data URL, read here as the image it decodes to, and the points. *)
Record NavigationState : Type :=
  { Image : HTMLImageElement; state_points : list Point }.

Definition navigateToCalculate (c : t) : NavigationState :=
  {| Image := {| width := canvas_width c; height := canvas_height c;
                 bitmap := canvas_pixels c |};
     state_points := points c |}.

(** A pixel [convertToBinary] turns black: its luminance is not above
    128. *)
Definition is_stain (p : rgba) : bool :=
  let '(r, g, b, _) := p in
  negb (128 <? grayscale (number_of_Z r) (number_of_Z g) (number_of_Z b))%float.

(** The stain pixels of a list. *)
Fixpoint count_stain (px : list rgba) : Z :=
  match px with
  | p :: px' => (if is_stain p then 1 else 0) + count_stain px'
  | [] => 0
  end.

End UploadImageComponent.

(** ** calculate-area.component.ts *)

Module CalculateAreaComponent.
Import JS Canvas CalculationService.

(** What the constructor sets going for a navigation [state]: with an image
    and points in it, the [onload] handler of the image calls [getResults];
    with no state the component only schedules the redirect, and the service
    is not called. *)
Definition onNavigation (b : Browser)
    (state : option UploadImageComponent.NavigationState)
    : M (option CalculationService.state) :=
  match state with
  | Some st =>
      bind (getResults b
              {| CalculationInput.points :=
                   Some (UploadImageComponent.state_points st);
                 CalculationInput.image :=
                   Some (UploadImageComponent.Image st) |})
           (fun results => ret (Some results))
  | None => ret None
  end.

End CalculateAreaComponent.

(** * Properties *)

(** Index arithmetic after a lookup or a store past a prefix [l]. *)
Ltac cancel_length l :=
  repeat match goal with
  | |- context [(length l + ?k - length l)%nat] =>
      replace (length l + k - length l)%nat with k by lia
  | |- context [(length l - length l)%nat] =>
      replace (length l - length l)%nat with 0%nat by lia
  end.

(** ** Order of binary64 values *)

Module FloatOrder.

Lemma SFcompare_antisym (s t : spec_float) :
  SFcompare t s =
  match SFcompare s t with Some c => Some (CompOpp c) | None => None end.
Proof.
  destruct s as [ [] | [] | | [] m e ], t as [ [] | [] | | [] m' e' ];
    simpl; try reflexivity.
  all: rewrite (Z.compare_antisym e e'); destruct (e ?= e')%Z; simpl;
    try reflexivity.
  all: rewrite (Pos.compare_cont_antisym m m' Eq); simpl; try reflexivity.
  all: destruct (Pos.compare_cont Eq m m'); reflexivity.
Qed.

(** [x <= y] excludes [y < x]. *)
Lemma leb_not_gt (a b : float) :
  (a <=? b)%float = true -> (b <? a)%float = false.
Proof.
  rewrite FloatAxioms.leb_spec, FloatAxioms.ltb_spec. unfold SFleb, SFltb.
  rewrite (SFcompare_antisym (Prim2SF a) (Prim2SF b)).
  destruct (SFcompare (Prim2SF a) (Prim2SF b)) as [ [] | ]; simpl; congruence.
Qed.

(** [x == y] excludes [y < x]. *)
Lemma eqb_not_gt (a b : float) :
  (a =? b)%float = true -> (b <? a)%float = false.
Proof.
  rewrite FloatAxioms.eqb_spec, FloatAxioms.ltb_spec. unfold SFeqb, SFltb.
  rewrite (SFcompare_antisym (Prim2SF a) (Prim2SF b)).
  destruct (SFcompare (Prim2SF a) (Prim2SF b)) as [ [] | ]; simpl; congruence.
Qed.

End FloatOrder.

(** ** The binarizer *)

Module Binarizer.
Import JS UploadImage.

Lemma binaryValue_nan : binaryValue nan = 0.
Proof. reflexivity. Qed.

Lemma binaryValue_cases (gs : number) :
  binaryValue gs = 0 \/ binaryValue gs = 255.
Proof. unfold binaryValue. destruct (128 <? gs)%float; auto. Qed.

(** The loop is over once the index has left the buffer. *)
Lemma binarize_loop_done (fuel i : nat) (bd : list Z) :
  (length bd <= i)%nat -> binarize_loop fuel i bd = bd.
Proof.
  intros Hi. destruct fuel as [|fuel]; [reflexivity|]. simpl.
  destruct (Nat.ltb_spec i (length bd)); [lia | reflexivity].
Qed.

Lemma grayscale_at_app (pre suf : list Z) :
  grayscale_at (pre ++ suf) (length pre) = grayscale_at suf 0.
Proof.
  unfold grayscale_at, element.
  rewrite !lookup_app_r by lia. cancel_length pre. reflexivity.
Qed.

(** A turn of the loop at the end of a prefix only sees what follows it. *)
Lemma binarize_step_app (pre suf : list Z) :
  binarize_step (length pre) (pre ++ suf) = pre ++ binarize_step 0 suf.
Proof.
  unfold binarize_step. rewrite grayscale_at_app.
  rewrite !insert_app_r_alt by lia. cancel_length pre. reflexivity.
Qed.

(** One turn on a whole pixel, and on the three possible short tails. *)
Lemma binarize_step_pixel (r g b a : Z) (rest : list Z) :
  binarize_step 0 (r :: g :: b :: a :: rest) =
  binarize_pixels [r; g; b; a] ++ rest.
Proof. reflexivity. Qed.

Lemma binarize_step_tail3 (r g b : Z) :
  binarize_step 0 [r; g; b] = binarize_pixels [r; g; b].
Proof. reflexivity. Qed.

Lemma binarize_step_tail2 (r g : Z) :
  binarize_step 0 [r; g] = binarize_pixels [r; g].
Proof. reflexivity. Qed.

Lemma binarize_step_tail1 (r : Z) :
  binarize_step 0 [r] = binarize_pixels [r].
Proof. reflexivity. Qed.

(** The loop computes the per-pixel pass on what follows the index. *)
Lemma binarize_loop_app (fuel : nat) :
  forall pre suf : list Z,
    (length suf <= fuel)%nat ->
    binarize_loop fuel (length pre) (pre ++ suf) = pre ++ binarize_pixels suf.
Proof.
  induction fuel as [|fuel IH]; intros pre suf Hfuel.
  - destruct suf; [reflexivity | simpl in Hfuel; lia].
  - cbn [binarize_loop]. rewrite length_app.
    destruct suf as [|r [|g [|b [|a rest]]]].
    + destruct (Nat.ltb_spec (length pre) (length pre + length (@nil Z)));
        [simpl in *; lia | reflexivity].
    + destruct (Nat.ltb_spec (length pre) (length pre + length [r]));
        [| simpl in *; lia].
      rewrite binarize_step_app, binarize_step_tail1.
      apply binarize_loop_done. rewrite length_app. simpl. lia.
    + destruct (Nat.ltb_spec (length pre) (length pre + length [r; g]));
        [| simpl in *; lia].
      rewrite binarize_step_app, binarize_step_tail2.
      apply binarize_loop_done. rewrite length_app. simpl. lia.
    + destruct (Nat.ltb_spec (length pre) (length pre + length [r; g; b]));
        [| simpl in *; lia].
      rewrite binarize_step_app, binarize_step_tail3.
      apply binarize_loop_done. rewrite length_app. simpl. lia.
    + destruct (Nat.ltb_spec (length pre)
                  (length pre + length (r :: g :: b :: a :: rest)));
        [| simpl in *; lia].
      rewrite binarize_step_app, binarize_step_pixel.
      rewrite app_assoc.
      replace (length pre + 4)%nat
        with (length (pre ++ binarize_pixels [r; g; b; a])).
      2:{ rewrite length_app. reflexivity. }
      rewrite IH by (simpl in Hfuel; lia).
      rewrite <- app_assoc. reflexivity.
Qed.

(** [convertToBinary] is the per-pixel pass. *)
Lemma convertToBinary_pixels (imageData : list Z) :
  convertToBinary imageData = binarize_pixels imageData.
Proof.
  unfold convertToBinary.
  apply (binarize_loop_app (length imageData) [] imageData). lia.
Qed.

Lemma length_binarize_pixels (bytes : list Z) :
  length (binarize_pixels bytes) = length bytes.
Proof.
  revert bytes. fix IH 1.
  intros [|r [|g [|b [|a rest]]]]; try reflexivity.
  cbn [binarize_pixels length]. rewrite (IH rest). reflexivity.
Qed.

(** The pixel at offset [4 * k] of the per-pixel pass. *)
Lemma binarize_pixels_lookup (k : nat) :
  forall (bytes : list Z) (r g b a : Z),
    bytes !! (4 * k)%nat = Some r ->
    bytes !! (4 * k + 1)%nat = Some g ->
    bytes !! (4 * k + 2)%nat = Some b ->
    bytes !! (4 * k + 3)%nat = Some a ->
    let v := binaryValue
               (grayscale (number_of_Z r) (number_of_Z g) (number_of_Z b)) in
    binarize_pixels bytes !! (4 * k)%nat = Some v /\
    binarize_pixels bytes !! (4 * k + 1)%nat = Some v /\
    binarize_pixels bytes !! (4 * k + 2)%nat = Some v /\
    binarize_pixels bytes !! (4 * k + 3)%nat = Some 255.
Proof.
  induction k as [|k IH]; intros bytes r g b a Hr Hg Hb Ha.
  - destruct bytes as [|r' [|g' [|b' [|a' rest]]]]; try discriminate.
    cbn in Hr, Hg, Hb, Ha. inversion Hr; inversion Hg; inversion Hb; subst.
    cbn. auto.
  - replace (4 * S k)%nat with (S (S (S (S (4 * k))))) in * by lia.
    destruct bytes as [|r' [|g' [|b' [|a' rest]]]]; try discriminate.
    cbn [binarize_pixels]. cbn [lookup list_lookup Nat.add] in *.
    apply (IH rest r g b a); assumption.
Qed.

(** A binarized channel value binarizes to itself. *)
Lemma binaryValue_fixed (gs : number) :
  let v := binaryValue gs in
  binaryValue (grayscale (number_of_Z v) (number_of_Z v) (number_of_Z v)) = v.
Proof.
  intros v. subst v.
  destruct (binaryValue_cases gs) as [-> | ->]; vm_compute; reflexivity.
Qed.

Lemma binarize_pixels_idempotent (bytes : list Z) :
  binarize_pixels (binarize_pixels bytes) = binarize_pixels bytes.
Proof.
  revert bytes. fix IH 1.
  intros [|r [|g [|b [|a rest]]]]; try reflexivity.
  - cbn [binarize_pixels]. rewrite binaryValue_fixed. reflexivity.
  - cbn [binarize_pixels]. rewrite binaryValue_fixed, (IH rest). reflexivity.
Qed.

Lemma binarize_pixels_mask (mask : list bool) :
  binarize_pixels (mask_bytes mask) = mask_bytes mask.
Proof.
  induction mask as [|white mask IH]; [reflexivity|].
  destruct white; cbn [mask_bytes flat_map app binarize_pixels];
    fold (mask_bytes mask); rewrite IH; reflexivity.
Qed.

(** Where every pixel has luminance at most 128, the pass leaves opaque
    black only. *)
Lemma binarize_pixels_stained (n : nat) :
  forall bytes : list Z,
    length bytes = (4 * n)%nat ->
    (forall (k : nat) (r g b : Z),
        bytes !! (4 * k)%nat = Some r ->
        bytes !! (4 * k + 1)%nat = Some g ->
        bytes !! (4 * k + 2)%nat = Some b ->
        (grayscale (number_of_Z r) (number_of_Z g) (number_of_Z b) <=? 128)%float
          = true) ->
    binarize_pixels bytes = mask_bytes (replicate n false).
Proof.
  induction n as [|n IH]; intros bytes Hlen Hlum.
  - destruct bytes; [reflexivity | discriminate].
  - destruct bytes as [|r [|g [|b [|a rest]]]]; cbn [length] in Hlen; try lia.
    cbn [binarize_pixels replicate mask_bytes flat_map app].
    fold (mask_bytes (replicate n false)).
    unfold binaryValue.
    rewrite (FloatOrder.leb_not_gt _ _ (Hlum 0%nat r g b eq_refl eq_refl eq_refl)).
    rewrite (IH rest); [reflexivity | lia |].
    intros k r' g' b' Hr Hg Hb.
    apply (Hlum (S k) r' g' b');
      replace (4 * S k)%nat with (S (S (S (S (4 * k))))) by lia;
      assumption.
Qed.

End Binarizer.

(** ** Claims about the binarizer *)

(** C4. [convertToBinary] works pixel by pixel: for the pixel at offset
    [4 * k] with channels [r], [g], [b] and any alpha [a], it computes
    [L = 0.3 * R + 0.59 * G + 0.11 * B] in binary64, where [R], [G], [B] are
    the binary64 values of the three bytes (the nearest binary64 value to the
    integer, written with the Standard Library's [binary_normalize]); the
    three colour bytes of the output are 255 when [L > 128] and 0 otherwise,
    and the alpha byte is 255.  The output is a function of the input alone
    and has its length. *)
Theorem convertToBinary_per_pixel :
  forall (imageData : list Z) (k : nat) (r g b a : Z),
    imageData !! (4 * k)%nat = Some r ->
    imageData !! (4 * k + 1)%nat = Some g ->
    imageData !! (4 * k + 2)%nat = Some b ->
    imageData !! (4 * k + 3)%nat = Some a ->
    let R := SF2Prim (binary_normalize prec emax r 0 false) in
    let G := SF2Prim (binary_normalize prec emax g 0 false) in
    let B := SF2Prim (binary_normalize prec emax b 0 false) in
    let L := (0.3 * R + 0.59 * G + 0.11 * B)%float in
    let v := if (128 <? L)%float then 255 else 0 in
    UploadImage.convertToBinary imageData !! (4 * k)%nat = Some v /\
    UploadImage.convertToBinary imageData !! (4 * k + 1)%nat = Some v /\
    UploadImage.convertToBinary imageData !! (4 * k + 2)%nat = Some v /\
    UploadImage.convertToBinary imageData !! (4 * k + 3)%nat = Some 255 /\
    length (UploadImage.convertToBinary imageData) = length imageData.
Proof.
  intros imageData k r g b a Hr Hg Hb Ha R G B L v.
  rewrite Binarizer.convertToBinary_pixels.
  destruct (Binarizer.binarize_pixels_lookup k imageData r g b a Hr Hg Hb Ha)
    as (H0 & H1 & H2 & H3).
  repeat split; try assumption.
  apply Binarizer.length_binarize_pixels.
Qed.

(** The second and third pixels of a three-pixel buffer: bright cyan
    (10, 250, 250), whose red alone is dark, comes out white; dark red
    (250, 10, 10), whose red alone is bright, comes out black. *)
Lemma convertToBinary_per_pixel_witness :
  (UploadImage.convertToBinary
     [200; 180; 90; 17; 10; 250; 250; 0; 250; 10; 10; 128] !! 4%nat
   = Some 255 /\
   UploadImage.convertToBinary
     [200; 180; 90; 17; 10; 250; 250; 0; 250; 10; 10; 128] !! 7%nat
   = Some 255) /\
  (UploadImage.convertToBinary
     [200; 180; 90; 17; 10; 250; 250; 0; 250; 10; 10; 128] !! 8%nat
   = Some 0 /\
   UploadImage.convertToBinary
     [200; 180; 90; 17; 10; 250; 250; 0; 250; 10; 10; 128] !! 11%nat
   = Some 255).
Proof.
  pose proof (convertToBinary_per_pixel
                [200; 180; 90; 17; 10; 250; 250; 0; 250; 10; 10; 128]
                1 10 250 250 0 eq_refl eq_refl eq_refl eq_refl) as Hcyan.
  pose proof (convertToBinary_per_pixel
                [200; 180; 90; 17; 10; 250; 250; 0; 250; 10; 10; 128]
                2 250 10 10 128 eq_refl eq_refl eq_refl eq_refl) as Hred.
  cbv zeta in Hcyan, Hred.
  destruct Hcyan as (C0 & _ & _ & C3 & _).
  destruct Hred as (R0 & _ & _ & R3 & _).
  split; split; assumption.
Defined.

(** C5, as the code has it.  A pixel whose luminance is exactly 128 is not
    above the threshold: its three colour bytes become 0 (stain), its alpha
    255. *)
Theorem convertToBinary_boundary_is_stain :
  forall (imageData : list Z) (k : nat) (r g b a : Z),
    imageData !! (4 * k)%nat = Some r ->
    imageData !! (4 * k + 1)%nat = Some g ->
    imageData !! (4 * k + 2)%nat = Some b ->
    imageData !! (4 * k + 3)%nat = Some a ->
    (UploadImage.grayscale
       (JS.number_of_Z r) (JS.number_of_Z g) (JS.number_of_Z b) =? 128)%float
      = true ->
    UploadImage.convertToBinary imageData !! (4 * k)%nat = Some 0 /\
    UploadImage.convertToBinary imageData !! (4 * k + 1)%nat = Some 0 /\
    UploadImage.convertToBinary imageData !! (4 * k + 2)%nat = Some 0 /\
    UploadImage.convertToBinary imageData !! (4 * k + 3)%nat = Some 255.
Proof.
  intros imageData k r g b a Hr Hg Hb Ha HL.
  rewrite Binarizer.convertToBinary_pixels.
  destruct (Binarizer.binarize_pixels_lookup k imageData r g b a Hr Hg Hb Ha)
    as (H0 & H1 & H2 & H3).
  unfold UploadImage.binaryValue in H0, H1, H2.
  rewrite (FloatOrder.eqb_not_gt _ _ HL) in H0, H1, H2.
  auto.
Qed.

(** The pixel (0, 208, 48): luminance exactly 128. *)
Lemma convertToBinary_boundary_is_stain_witness :
  UploadImage.convertToBinary [0; 208; 48; 255] !! 0%nat = Some 0.
Proof.
  exact (proj1 (convertToBinary_boundary_is_stain
                  [0; 208; 48; 255] 0 0 208 48 255
                  eq_refl eq_refl eq_refl eq_refl eq_refl)).
Defined.

(** C5, as the spec words it, fails: the opaque pixel (0, 208, 48) has
    luminance exactly 128 and comes out black, not white. *)
Lemma boundary_pixel_is_not_background :
  (UploadImage.grayscale
     (JS.number_of_Z 0) (JS.number_of_Z 208) (JS.number_of_Z 48) =? 128)%float
    = true /\
  UploadImage.convertToBinary [0; 208; 48; 255] = [0; 0; 0; 255] /\
  UploadImage.convertToBinary [0; 208; 48; 255] <> [255; 255; 255; 255].
Proof.
  split; [vm_compute; reflexivity|].
  split; [vm_compute; reflexivity|].
  vm_compute. discriminate.
Qed.

(** C6. Binarizing twice is binarizing once, for every buffer; and a mask of
    opaque black and opaque white pixels is left as it is. *)
Theorem convertToBinary_idempotent :
  (forall imageData : list Z,
     UploadImage.convertToBinary (UploadImage.convertToBinary imageData)
     = UploadImage.convertToBinary imageData) /\
  (forall mask : list bool,
     UploadImage.convertToBinary (UploadImage.mask_bytes mask)
     = UploadImage.mask_bytes mask).
Proof.
  split.
  - intros imageData. rewrite !Binarizer.convertToBinary_pixels.
    apply Binarizer.binarize_pixels_idempotent.
  - intros mask. rewrite Binarizer.convertToBinary_pixels.
    apply Binarizer.binarize_pixels_mask.
Qed.

(** ** The estimator *)

Module Estimator.
Import JS Canvas CalculationService Estimation.

Lemma length_data (d : ImageData) :
  length (data d) = (4 * length (pixels d))%nat.
Proof.
  unfold data. induction (pixels d) as [|[[[r g] b] a] l IH]; [reflexivity|].
  cbn [flat_map bytes_of app length]. rewrite IH. lia.
Qed.

Lemma length_drawImage (image : HTMLImageElement) :
  length (drawImage image) = N.to_nat (width image * height image).
Proof. apply length_resize. Qed.

Lemma length_drawPoints (b : Browser) (w : N) (points : list Point) :
  forall canvas : list rgba,
    length (fold_left (drawPoint b w) points canvas) = length canvas.
Proof.
  induction points as [|p points IH]; intros canvas; [reflexivity|].
  cbn [fold_left]. rewrite IH. apply length_imap.
Qed.

(** The test of the loop at the first byte of a pixel. *)
Lemma black_and_red_pixel (po pv : list rgba) (o v : rgba) (so sv : list rgba) :
  length po = length pv ->
  black_and_red (flat_map bytes_of (po ++ o :: so))
                (flat_map bytes_of (pv ++ v :: sv))
                (length (flat_map bytes_of pv))
  = is_black o && is_red v.
Proof.
  intros Hlen.
  assert (Hflat : length (flat_map bytes_of po) = length (flat_map bytes_of pv)).
  { pose proof (length_data {| pixels := po |}) as H1.
    pose proof (length_data {| pixels := pv |}) as H2.
    unfold data in H1, H2. cbn [pixels] in H1, H2. lia. }
  unfold black_and_red, element_is, element.
  rewrite !flat_map_app. cbn [flat_map].
  rewrite <- Hflat at 1 2 3.
  destruct o as [[[r g] b] a], v as [[[r' g'] b'] a']. cbn [bytes_of app].
  rewrite !lookup_app_r by lia.
  cancel_length (flat_map bytes_of po). cancel_length (flat_map bytes_of pv).
  cbn. unfold is_black, is_red.
  destruct (r =? 0), (g =? 0), (b =? 0), (r' =? 255), (g' =? 0), (b' =? 0);
    reflexivity.
Qed.

(** From the first byte of a pixel on, the loop counts the pixels that are
    black in the original and red in the overlay. *)
Lemma count_loop_app (so : list rgba) :
  forall (sv po pv : list rgba) (fuel : nat) (acc : Z),
    length po = length pv ->
    length so = length sv ->
    (4 * length sv <= fuel)%nat ->
    count_loop fuel (length (flat_map bytes_of pv))
      (flat_map bytes_of (po ++ so)) (flat_map bytes_of (pv ++ sv)) acc
    = acc + count_pixels so sv.
Proof.
  induction so as [|o so IH]; intros sv po pv fuel acc Hp Hs Hfuel.
  - destruct sv; [|discriminate]. cbn [count_pixels].
    rewrite Z.add_0_r. destruct fuel as [|fuel]; [reflexivity|].
    cbn [count_loop]. rewrite app_nil_r.
    destruct (Nat.ltb_spec (length (flat_map bytes_of pv))
                (length (flat_map bytes_of pv))); [lia | reflexivity].
  - destruct sv as [|v sv]; [discriminate|].
    destruct fuel as [|fuel]; [cbn [length] in Hfuel; lia|].
    cbn [count_loop].
    destruct (Nat.ltb_spec (length (flat_map bytes_of pv))
                (length (flat_map bytes_of (pv ++ v :: sv)))) as [_|Hge].
    2:{ rewrite flat_map_app, length_app in Hge.
        destruct v as [[[r g] b] a]. cbn in Hge. lia. }
    rewrite (black_and_red_pixel po pv o v so sv Hp).
    replace (po ++ o :: so) with ((po ++ [o]) ++ so)
      by (rewrite <- app_assoc; reflexivity).
    replace (pv ++ v :: sv) with ((pv ++ [v]) ++ sv)
      by (rewrite <- app_assoc; reflexivity).
    replace (length (flat_map bytes_of pv) + 4)%nat
      with (length (flat_map bytes_of (pv ++ [v]))).
    2:{ rewrite flat_map_app, length_app.
        destruct v as [[[r g] b] a]. reflexivity. }
    rewrite IH.
    + cbn [count_pixels]. destruct (is_black o && is_red v); lia.
    + rewrite !length_app. cbn [length]. lia.
    + cbn [length] in Hs. lia.
    + cbn [length] in Hfuel. lia.
Qed.

(** The loop of [getPointsInside] on two buffers of the same size. *)
Lemma count_loop_pixels (original overlay : ImageData) :
  length (pixels original) = length (pixels overlay) ->
  count_loop (length (data overlay)) 0 (data original) (data overlay) 0
  = count_pixels (pixels original) (pixels overlay).
Proof.
  intros Hlen.
  pose proof (count_loop_app (pixels original) (pixels overlay) [] []
                (length (data overlay)) 0 eq_refl Hlen) as H.
  rewrite length_data in H. specialize (H (le_n _)).
  rewrite length_data. exact H.
Qed.

Lemma count_pixels_le_black (original overlay : list rgba) :
  0 <= count_pixels original overlay <= count_black original.
Proof.
  revert overlay. induction original as [|o original IH]; intros overlay.
  - cbn. lia.
  - destruct overlay as [|v overlay]; cbn [count_pixels count_black].
    + specialize (IH []). destruct original; cbn [count_pixels] in IH;
        destruct (is_black o); lia.
    + specialize (IH overlay).
      destruct (is_black o), (is_red v); cbn [andb]; lia.
Qed.

Lemma count_black_le_length (original : list rgba) :
  0 <= count_black original <= Z.of_nat (length original).
Proof.
  induction original as [|o original IH]; cbn [count_black length]; [lia|].
  destruct (is_black o); lia.
Qed.

Lemma count_black_none (original : list rgba) :
  Forall (fun p => is_black p = false) original -> count_black original = 0.
Proof.
  induction 1 as [|o original Ho _ IH]; [reflexivity|].
  cbn [count_black]. rewrite Ho, IH. reflexivity.
Qed.

(** What [getPointsInside] does, stage by stage: it throws when there is no
    2D context or the image has no area; otherwise it returns the overlay
    and the count, taken against the pixels of the image as it is given. *)
Lemma getPointsInside_spec (b : Browser) (points : list Point)
    (image : HTMLImageElement) :
  getPointsInside b points image =
  if getContext2d b OverlayCanvas then
    if ((width image =? 0) || (height image =? 0))%N
    then Throw (DOMException "IndexSizeError")
    else
      let overlay :=
        fold_left (drawPoint b (width image)) points (drawImage image) in
      Return ({| pixels := overlay |}, count_pixels (drawImage image) overlay)
  else Throw (Error "Could not get canvas context").
Proof.
  unfold getPointsInside, overlayImage, getImageData.
  destruct (getContext2d b OverlayCanvas); [|reflexivity].
  destruct ((width image =? 0) || (height image =? 0))%N; [reflexivity|].
  cbv zeta. f_equal. f_equal.
  apply (count_loop_pixels {| pixels := drawImage image |}
           {| pixels := fold_left (drawPoint b (width image)) points
                          (drawImage image) |}).
  cbn [pixels]. rewrite length_drawPoints. reflexivity.
Qed.

(** [getPointsInside] throws nothing that counts as a validation error. *)
Lemma getPointsInside_throws (b : Browser) (points : list Point)
    (image : HTMLImageElement) (e : exn) :
  getPointsInside b points image = Throw e ->
  e = Error "Could not get canvas context" \/ e = DOMException "IndexSizeError".
Proof.
  rewrite getPointsInside_spec.
  destruct (getContext2d b OverlayCanvas);
    [destruct ((width image =? 0) || (height image =? 0))%N|];
    cbv zeta; intros H; inversion H; auto.
Qed.

(** The reference rasterizer is one of them. *)
Lemma reference_paints_core : paints_core reference_browser.
Proof.
  split; intros p px py c H; cbn [marker reference_browser]; unfold fill_core.
  - rewrite H. reflexivity.
  - destruct (inside_fill p px py); [reflexivity | exact H].
Qed.

(** The reference rasterizer paints the fewest pixels red. *)
Lemma imap_at_least_as_red (l l' : list rgba) :
  Forall2 at_least_as_red l l' ->
  forall f g : nat -> rgba -> rgba,
    (forall (k : nat) (c c' : rgba),
        at_least_as_red c c' -> at_least_as_red (f k c) (g k c')) ->
    Forall2 at_least_as_red (imap f l) (imap g l').
Proof.
  induction 1 as [|c c' l l' Hc _ IH]; intros f g Hfg; [constructor|].
  rewrite !imap_cons. constructor; [apply Hfg; exact Hc|].
  apply IH. intros k. apply Hfg.
Qed.

Lemma drawPoints_at_least_as_red (b : Browser) (w : N) (points : list Point) :
  paints_core b ->
  forall canvas canvas' : list rgba,
    Forall2 at_least_as_red canvas canvas' ->
    Forall2 at_least_as_red
      (fold_left (drawPoint reference_browser w) points canvas)
      (fold_left (drawPoint b w) points canvas').
Proof.
  intros [Hcore Hkeep].
  induction points as [|p points IH]; intros canvas canvas' Hcanvas;
    [exact Hcanvas|].
  cbn [fold_left]. apply IH. unfold drawPoint.
  apply imap_at_least_as_red; [exact Hcanvas|].
  intros k c c' Hc. cbn [marker reference_browser]. unfold fill_core.
  destruct (inside_fill p (Z.of_nat k mod Z.of_N w) (Z.of_nat k / Z.of_N w))
    eqn:Hin; intros Hred.
  - apply Hcore. exact Hin.
  - apply Hkeep. apply Hc. exact Hred.
Qed.

Lemma count_pixels_at_least_as_red (overlay overlay' : list rgba) :
  Forall2 at_least_as_red overlay overlay' ->
  forall original : list rgba,
    count_pixels original overlay <= count_pixels original overlay'.
Proof.
  induction 1 as [|v v' overlay overlay' Hv _ IH]; intros original.
  - destruct original; cbn; lia.
  - destruct original as [|o original]; [cbn; lia|].
    cbn [count_pixels]. specialize (IH original).
    destruct (is_black o); cbn [andb]; [|lia].
    destruct (is_red v) eqn:Hred; [rewrite (Hv Hred); lia|].
    destruct (is_red v'); lia.
Qed.

(** Under any rasterizer that paints the core of a marker, the count is at
    least the reference count. *)
Lemma reference_count_is_least (b : Browser) (points : list Point)
    (image : HTMLImageElement) :
  paints_core b ->
  getContext2d b OverlayCanvas = true ->
  forall n : Z,
    pointsInside_of (getPointsInside reference_browser points image) = Some n ->
    exists n' : Z,
      pointsInside_of (getPointsInside b points image) = Some n' /\ n <= n'.
Proof.
  intros Hb Hctx n. rewrite !getPointsInside_spec, Hctx.
  cbn [getContext2d reference_browser].
  destruct ((width image =? 0) || (height image =? 0))%N; [discriminate|].
  cbv zeta. cbn [pointsInside_of]. intros Hn. inversion Hn as [Hn'].
  eexists. split; [reflexivity|].
  apply count_pixels_at_least_as_red.
  apply drawPoints_at_least_as_red; [exact Hb|].
  apply Forall_Forall2_diag, Forall_forall. intros c _ Hc. exact Hc.
Qed.

(** [getResults], stage by stage, with the state it ends in. *)
Lemma getResults_spec (b : Browser) (data : CalculationInput.t) (s : state) :
  getResults b data s =
  match CalculationInput.image data, CalculationInput.points data with
  | None, _ => (Throw (Error "Image is required for calculation"), s)
  | Some _, None =>
      (Throw (Error "At least 3 points are required for calculation"), s)
  | Some image, Some points =>
      if (length points <? 3)%nat
      then (Throw (Error "At least 3 points are required for calculation"), s)
      else
        match getPointsInside b points image with
        | Throw e => (Throw e, s)
        | Return (overlayImageData, pointsInside) =>
            if getContext2d b ExportCanvas then
              let result :=
                {| CalculationResult.area :=
                     estimatedArea (totalArea image) pointsInside (length points);
                   CalculationResult.points := points;
                   CalculationResult.originalImage := image;
                   CalculationResult.modifiedImage :=
                     {| width := width image; height := height image;
                        bitmap := pixels overlayImageData |} |} in
              (Return (s ++ [result]), s ++ [result])
            else (Throw (Error "Could not get canvas context"), s)
        end
  end.
Proof.
  unfold getResults.
  destruct (CalculationInput.image data) as [image|]; [|reflexivity].
  destruct (CalculationInput.points data) as [points|]; [|reflexivity].
  destruct (length points <? 3)%nat; [reflexivity|].
  unfold bind, lift.
  destruct (getPointsInside b points image) as [[overlay n]|e]; [|reflexivity].
  destruct (getContext2d b ExportCanvas); reflexivity.
Qed.

(** A run of [getResults] either throws and leaves [results] alone, or
    appends one result and returns the new list. *)
Lemma getResults_cases (b : Browser) (data : CalculationInput.t) (s : state) :
  (exists e, getResults b data s = (Throw e, s)) \/
  (exists r, getResults b data s = (Return (s ++ [r]), s ++ [r])).
Proof.
  rewrite getResults_spec.
  destruct (CalculationInput.image data) as [image|]; [|eauto].
  destruct (CalculationInput.points data) as [points|]; [|eauto].
  destruct (length points <? 3)%nat; [eauto|].
  destruct (getPointsInside b points image) as [[overlay n]|e]; [|eauto].
  destruct (getContext2d b ExportCanvas); cbv zeta; eauto.
Qed.

End Estimator.

(** ** Claims about the estimator and the result log *)

Section EstimatorClaims.
Import JS Canvas CalculationService Estimation.

(** C10. Whatever the platform draws, the count [getPointsInside] returns is
    the number of pixels that are black in the original and red in the
    overlay, each pixel counted once: it lies between 0 and
    [width * height].  The call throws only when there is no 2D context or
    the image has no area. *)
Theorem pointsInside_at_most_pixels :
  forall (b : Browser) (points : list Point) (image : HTMLImageElement),
    match getPointsInside b points image with
    | Return (overlayImageData, pointsInside) =>
        pointsInside
          = count_pixels (drawImage image) (pixels overlayImageData) /\
        0 <= pointsInside <= Z.of_N (width image * height image)
    | Throw _ =>
        getContext2d b OverlayCanvas = false \/
        width image = 0%N \/ height image = 0%N
    end.
Proof.
  intros b points image. rewrite Estimator.getPointsInside_spec.
  destruct (getContext2d b OverlayCanvas); [|left; reflexivity].
  destruct (N.eqb_spec (width image) 0) as [Hw|Hw];
    [cbn [orb]; right; left; exact Hw|].
  destruct (N.eqb_spec (height image) 0) as [Hh|Hh];
    [cbn [orb]; right; right; exact Hh|].
  cbn [orb]. cbv zeta. cbn [pixels]. split; [reflexivity|].
  pose proof (Estimator.count_pixels_le_black (drawImage image)
                (fold_left (drawPoint b (width image)) points (drawImage image))).
  pose proof (Estimator.count_black_le_length (drawImage image)) as Hb.
  rewrite Estimator.length_drawImage in Hb. lia.
Qed.

(** C7. [getResults] throws one of its two validation errors exactly when
    the image is missing or fewer than 3 points are supplied; and whenever it
    throws, for whatever reason, [results] is what it was before the call. *)
Theorem getResults_validation :
  forall (b : Browser) (data : CalculationInput.t) (s : state),
    let supplied :=
      match CalculationInput.points data with
      | Some points => length points
      | None => 0%nat
      end in
    (is_validation_error (fst (getResults b data s)) = true <->
     CalculationInput.image data = None \/ (supplied < 3)%nat) /\
    (forall e : exn,
        fst (getResults b data s) = Throw e -> snd (getResults b data s) = s).
Proof.
  intros b data s supplied. split.
  - subst supplied. rewrite Estimator.getResults_spec.
    destruct (CalculationInput.image data) as [image|].
    2:{ cbn. split; auto. }
    destruct (CalculationInput.points data) as [points|].
    2:{ cbn. split; [intros _; right; lia | reflexivity]. }
    destruct (Nat.ltb_spec (length points) 3) as [Hlt|Hge].
    { cbn. split; [intros _; right; lia | reflexivity]. }
    destruct (getPointsInside b points image) as [[overlay n]|e] eqn:Hget.
    + destruct (getContext2d b ExportCanvas); cbn;
        (split; [discriminate | intros [?|?]; [discriminate | lia]]).
    + destruct (Estimator.getPointsInside_throws b points image e Hget)
        as [-> | ->]; cbn;
        (split; [discriminate | intros [?|?]; [discriminate | lia]]).
  - intros e He.
    destruct (Estimator.getResults_cases b data s) as [[e' H] | [r H]];
      rewrite H in *; [reflexivity | discriminate].
Qed.

(** C9. [addResult] puts the result at the end of [results] and leaves
    every earlier entry where it was; and after any call of a public method
    of the service the earlier [results] is still a prefix of [results]. *)
Theorem addResult_appends :
  forall (result : CalculationResult.t) (s : state),
    snd (addResult result s) = s ++ [result] /\
    snd (addResult result s) !! length s = Some result /\
    (forall (i : nat) (r : CalculationResult.t),
        s !! i = Some r -> snd (addResult result s) !! i = Some r) /\
    (forall (b : Browser) (c : call), s `prefix_of` after b c s).
Proof.
  intros result s.
  assert (Hadd : snd (addResult result s) = s ++ [result]) by reflexivity.
  rewrite Hadd. split; [reflexivity|]. split.
  { apply list_lookup_middle. reflexivity. }
  split.
  { intros i r Hi. apply lookup_app_l_Some. exact Hi. }
  intros b [data|result'|image points]; cbn [after].
  - destruct (Estimator.getResults_cases b data s) as [[e H] | [r H]];
      rewrite H; cbn [snd]; [reflexivity | apply prefix_app_r; reflexivity].
  - cbn. apply prefix_app_r. reflexivity.
  - reflexivity.
Qed.

End EstimatorClaims.

Section PixelCountClaims.
Import JS Canvas CalculationService Estimation.

(** C1, on the code.  What [getPointsInside] returns is a number of pixels,
    not of points.  On a 10 x 10 opaque black image with three points at
    (5, 5), every pixel inside the marker is counted: 32 under the reference
    rasterizer, and at least as many under any rasterizer that paints the
    core of a marker.  [pointsInside] exceeds the 3 points, and the area
    stored exceeds the image's 100. *)
Theorem three_points_count_as_32 :
  let image := uniform_image 10 10 black in
  let points := [centre; centre; centre] in
  let data := {| CalculationInput.points := Some points;
                 CalculationInput.image := Some image |} in
  pointsInside_of (getPointsInside reference_browser points image) = Some 32 /\
  Z.of_nat (length points) < 32 /\
  totalArea image = 100%float /\
  appended_area initial (getResults reference_browser data initial)
    = Some 1066.6667%float /\
  (totalArea image <? 1066.6667)%float = true /\
  (forall b : Browser,
      paints_core b -> getContext2d b OverlayCanvas = true ->
      exists n : Z,
        pointsInside_of (getPointsInside b points image) = Some n /\
        Z.of_nat (length points) < n).
Proof.
  cbv zeta.
  split; [vm_compute; reflexivity|].
  split; [vm_compute; reflexivity|].
  split; [vm_compute; reflexivity|].
  split; [vm_compute; reflexivity|].
  split; [vm_compute; reflexivity|].
  intros b Hb Hctx.
  destruct (Estimator.reference_count_is_least b
              [centre; centre; centre] (uniform_image 10 10 black) Hb Hctx 32)
    as (n & Hn & Hle); [vm_compute; reflexivity|].
  exists n. split; [exact Hn|]. cbn [length]. lia.
Qed.

(** C2, on the code.  On the 10 x 10 opaque black image with the ten points
    (0, 0), (1, 1), ..., (9, 9), [totalArea] is 100 but [pointsInside] is the
    70 pixels the markers cover, not 10, and the area stored is 700; under
    any rasterizer that paints the core of a marker it is more than 10. *)
Theorem ten_points_count_as_70 :
  let image := uniform_image 10 10 black in
  let points :=
    map (fun i => {| x := Z.of_nat i; y := Z.of_nat i |}) (seq 0 10) in
  let data := {| CalculationInput.points := Some points;
                 CalculationInput.image := Some image |} in
  length points = 10%nat /\
  totalArea image = 100%float /\
  pointsInside_of (getPointsInside reference_browser points image) = Some 70 /\
  appended_area initial (getResults reference_browser data initial)
    = Some 700%float /\
  (700 =? 100)%float = false /\
  (forall b : Browser,
      paints_core b -> getContext2d b OverlayCanvas = true ->
      exists n : Z,
        pointsInside_of (getPointsInside b points image) = Some n /\ 10 < n).
Proof.
  cbv zeta.
  split; [vm_compute; reflexivity|].
  split; [vm_compute; reflexivity|].
  split; [vm_compute; reflexivity|].
  split; [vm_compute; reflexivity|].
  split; [vm_compute; reflexivity|].
  intros b Hb Hctx.
  destruct (Estimator.reference_count_is_least b
              (map (fun i => {| x := Z.of_nat i; y := Z.of_nat i |}) (seq 0 10))
              (uniform_image 10 10 black) Hb Hctx 70)
    as (n & Hn & Hle); [vm_compute; reflexivity|].
  exists n. split; [exact Hn|]. lia.
Qed.

(** C3, on the code.  A 10 x 10 image of opaque dark grey (10, 10, 10),
    every pixel of luminance at most 128, is uploaded with three points asked
    for and every draw of [Math.random] 0.5.  The load handler binarizes it
    to opaque black and samples the point (5, 5) three times; that mask and
    those points are what the calculation page hands to [getResults].  Every
    point lies in the stain, yet [getPointsInside] returns the number of
    pixels the markers cover: 32 under the reference rasterizer, and more
    than 3 under any rasterizer that paints the core of a marker.  The area
    stored is 1066.6667 for a total area of 100. *)
Theorem fully_stained_upload_counts_pixels :
  let img := uniform_image 10 10 (10, 10, 10, 255) in
  let before :=
    {| UploadImageComponent.canvas_width := 300;
       UploadImageComponent.canvas_height := 150;
       UploadImageComponent.canvas_pixels := [];
       UploadImageComponent.imageLoaded := false;
       UploadImageComponent.showButton := false;
       UploadImageComponent.showSlider := false;
       UploadImageComponent.numberPoints := Some 3;
       UploadImageComponent.points := [] |} in
  let loaded :=
    UploadImageComponent.onImageLoad (fun _ => 0.5%float) img before in
  let handed := UploadImageComponent.navigateToCalculate (snd loaded) in
  let mask := UploadImageComponent.Image handed in
  let sampled := UploadImageComponent.state_points handed in
  (0.3 * 10 + 0.59 * 10 + 0.11 * 10 <=? 128)%float = true /\
  fst loaded = Return tt /\
  mask = uniform_image 10 10 black /\
  sampled = [centre; centre; centre] /\
  pointsInside_of (getPointsInside reference_browser sampled mask) = Some 32 /\
  Z.of_nat (length sampled) < 32 /\
  totalArea mask = 100%float /\
  (exists result : CalculationResult.t,
      CalculateAreaComponent.onNavigation reference_browser (Some handed)
        initial
      = (Return (Some [result]), [result]) /\
      CalculationResult.area result = 1066.6667%float) /\
  (1066.6667 =? 100)%float = false /\
  (forall b : Browser,
      paints_core b -> getContext2d b OverlayCanvas = true ->
      exists n : Z,
        pointsInside_of (getPointsInside b sampled mask) = Some n /\
        Z.of_nat (length sampled) < n).
Proof.
  cbv zeta.
  split; [vm_compute; reflexivity|].
  split; [vm_compute; reflexivity|].
  assert (Hmask :
    UploadImageComponent.Image
      (UploadImageComponent.navigateToCalculate
         (snd (UploadImageComponent.onImageLoad (fun _ => 0.5%float)
                 (uniform_image 10 10 (10, 10, 10, 255))
                 {| UploadImageComponent.canvas_width := 300;
                    UploadImageComponent.canvas_height := 150;
                    UploadImageComponent.canvas_pixels := [];
                    UploadImageComponent.imageLoaded := false;
                    UploadImageComponent.showButton := false;
                    UploadImageComponent.showSlider := false;
                    UploadImageComponent.numberPoints := Some 3;
                    UploadImageComponent.points := [] |})))
    = uniform_image 10 10 black) by (vm_compute; reflexivity).
  assert (Hsampled :
    UploadImageComponent.state_points
      (UploadImageComponent.navigateToCalculate
         (snd (UploadImageComponent.onImageLoad (fun _ => 0.5%float)
                 (uniform_image 10 10 (10, 10, 10, 255))
                 {| UploadImageComponent.canvas_width := 300;
                    UploadImageComponent.canvas_height := 150;
                    UploadImageComponent.canvas_pixels := [];
                    UploadImageComponent.imageLoaded := false;
                    UploadImageComponent.showButton := false;
                    UploadImageComponent.showSlider := false;
                    UploadImageComponent.numberPoints := Some 3;
                    UploadImageComponent.points := [] |})))
    = [centre; centre; centre]) by (vm_compute; reflexivity).
  rewrite Hmask, Hsampled.
  split; [reflexivity|]. split; [reflexivity|].
  split; [vm_compute; reflexivity|].
  split; [vm_compute; reflexivity|].
  split; [vm_compute; reflexivity|].
  split.
  { eexists. split; [vm_compute; reflexivity | vm_compute; reflexivity]. }
  split; [vm_compute; reflexivity|].
  intros b Hb Hctx.
  destruct (Estimator.reference_count_is_least b
              [centre; centre; centre] (uniform_image 10 10 black) Hb Hctx 32)
    as (n & Hn & Hle); [vm_compute; reflexivity|].
  exists n. split; [exact Hn|]. cbn [length]. lia.
Qed.

End PixelCountClaims.

(** ** The sampler *)

Module Sampler.
Import JS UploadImage.

(** From index [i] on, the loop pushes one point per remaining turn. *)
Lemma length_generate_loop (Math_random : nat -> number) (width height : N)
    (n : Z) (fuel : nat) :
  forall (i : Z) (draws : nat) (points : list Point),
    fuel = Z.to_nat (n - i) ->
    length (generate_loop Math_random width height fuel i n draws points)
    = (length points + fuel)%nat.
Proof.
  induction fuel as [|fuel IH]; intros i draws points Hfuel;
    cbn [generate_loop]; [lia|].
  destruct (Z.ltb_spec i n) as [_|Hge]; [|lia].
  rewrite IH by lia. rewrite length_app. cbn [length]. lia.
Qed.

(** Asked for [n >= 0] points, the sampler returns [n] points. *)
Lemma length_generateRandomPoints (Math_random : nat -> number)
    (width height : N) (n : Z) :
  0 <= n ->
  exists points : list Point,
    generateRandomPoints Math_random width height n = Return points /\
    Z.of_nat (length points) = n.
Proof.
  intros Hn. eexists. split; [reflexivity|].
  rewrite length_generate_loop by (f_equal; lia). cbn [length]. lia.
Qed.

End Sampler.

(** ** Claim about the sampler *)

(** C8, as the code has it.  [generateRandomPoints] has no check of its
    count: for [n < 1] the loop body never runs and the call returns the
    empty list, for every random source, width and height. *)
Theorem generateRandomPoints_below_one :
  forall (Math_random : nat -> JS.number) (width height : N) (n : Z),
    n < 1 ->
    UploadImage.generateRandomPoints Math_random width height n = JS.Return [].
Proof.
  intros Math_random width height n Hn.
  unfold UploadImage.generateRandomPoints. f_equal.
  replace (Z.to_nat n) with 0%nat by lia. reflexivity.
Qed.

(** A count of -2 on a 640 x 480 canvas. *)
Lemma generateRandomPoints_below_one_witness :
  UploadImage.generateRandomPoints (fun _ => 0.5%float) 640 480 (-2)
  = JS.Return [].
Proof.
  apply generateRandomPoints_below_one. lia.
Defined.

(** C8, as the spec words it, fails: asked for 0 points on a 640 x 480
    canvas, the sampler returns the empty list and throws nothing. *)
Lemma sampling_zero_points_returns :
  UploadImage.generateRandomPoints (fun _ => 0.5%float) 640 480 0
    = JS.Return [] /\
  (forall e : JS.exn,
      UploadImage.generateRandomPoints (fun _ => 0.5%float) 640 480 0
      <> JS.Throw e).
Proof.
  split; [reflexivity|]. intros e H. discriminate H.
Qed.

(** * Further properties of the code *)

(** ** The binarizer, pixel by pixel *)

Module MaskFacts.
Import JS Canvas UploadImage BinaryMask.

(** On the bytes of a list of pixels, the per-pixel pass maps
    [binarize_pixel]. *)
Lemma binarize_pixels_data (px : list rgba) :
  binarize_pixels (flat_map bytes_of px)
  = flat_map bytes_of (map binarize_pixel px).
Proof.
  induction px as [|[[[r g] b] a] px IH]; [reflexivity|].
  cbn [flat_map bytes_of app map binarize_pixel binarize_pixels].
  rewrite IH. reflexivity.
Qed.

Lemma convertToBinary_data (px : list rgba) :
  convertToBinary (flat_map bytes_of px)
  = flat_map bytes_of (map binarize_pixel px).
Proof. rewrite Binarizer.convertToBinary_pixels. apply binarize_pixels_data. Qed.

Lemma pixels_of_bytes_data (px : list rgba) :
  pixels_of_bytes (flat_map bytes_of px) = px.
Proof.
  induction px as [|[[[r g] b] a] px IH]; [reflexivity|].
  cbn [flat_map bytes_of app pixels_of_bytes]. rewrite IH. reflexivity.
Qed.

Lemma binarize_pixel_cases (p : rgba) :
  binarize_pixel p = black \/ binarize_pixel p = white.
Proof.
  destruct p as [[[r g] b] a]. unfold binarize_pixel.
  destruct (Binarizer.binaryValue_cases
              (grayscale (number_of_Z r) (number_of_Z g) (number_of_Z b)))
    as [-> | ->]; [left | right]; reflexivity.
Qed.

(** The per-pixel pass on a buffer that starts with whole pixels. *)
Lemma binarize_pixels_app (n : nat) :
  forall front back : list Z,
    length front = (4 * n)%nat ->
    binarize_pixels (front ++ back)
    = binarize_pixels front ++ binarize_pixels back.
Proof.
  induction n as [|n IH]; intros front back Hlen.
  - destruct front; [reflexivity | discriminate].
  - destruct front as [|r [|g [|b [|a front]]]]; cbn [length] in Hlen; try lia.
    cbn [app binarize_pixels]. rewrite (IH front back) by lia. reflexivity.
Qed.

Lemma In_byte_values (z : Z) : 0 <= z <= 255 -> In z byte_values.
Proof.
  intros Hz. unfold byte_values.
  replace z with (Z.of_nat (Z.to_nat z)) by lia.
  apply in_map, in_seq. lia.
Qed.

(** Checked on the 65536 pairs of a red and a green byte. *)
Lemma boundary_is_stain_all :
  forallb (fun r => forallb (boundary_is_stain r) byte_values) byte_values
  = true.
Proof. vm_compute. reflexivity. Qed.

End MaskFacts.

Section MaskProperties.
Import JS Canvas UploadImage BinaryMask.

(** X1. Whatever the pixels of the canvas, [convertToBinary] leaves a mask:
    every pixel opaque black or opaque white, as many pixels as before. *)
Theorem convertToBinary_is_mask :
  forall d : ImageData,
    exists mask : list bool,
      convertToBinary (data d) = mask_bytes mask /\
      length mask = length (pixels d).
Proof.
  intros [px]. unfold data. cbn [pixels].
  rewrite MaskFacts.convertToBinary_data.
  induction px as [|p px (mask & Hmask & Hlen)]; [exists []; split; reflexivity|].
  destruct (MaskFacts.binarize_pixel_cases p) as [Hp | Hp].
  - exists (false :: mask). cbn [map flat_map mask_bytes length].
    rewrite Hp, Hmask. split; [reflexivity | lia].
  - exists (true :: mask). cbn [map flat_map mask_bytes length].
    rewrite Hp, Hmask. split; [reflexivity | lia].
Qed.

(** X2. [convertToBinary] does not read alpha: two canvases whose pixels
    have the same red, green and blue come out the same. *)
Theorem convertToBinary_ignores_alpha :
  forall d d' : ImageData,
    Forall2 same_colour (pixels d) (pixels d') ->
    convertToBinary (data d) = convertToBinary (data d').
Proof.
  intros [px] [px']. unfold data. cbn [pixels]. intros H.
  rewrite !MaskFacts.convertToBinary_data.
  induction H as [|[[[r g] b] a] [[[r' g'] b'] a'] px px' (-> & -> & ->) _ IH];
    [reflexivity|].
  cbn [map flat_map binarize_pixel]. rewrite IH. reflexivity.
Qed.

(** Two pixels that differ in alpha only. *)
Lemma convertToBinary_ignores_alpha_witness :
  convertToBinary (data {| pixels := [(200, 180, 90, 17)] |})
  = convertToBinary (data {| pixels := [(200, 180, 90, 255)] |}).
Proof.
  apply convertToBinary_ignores_alpha. cbn [pixels].
  constructor; [cbn; auto | constructor].
Defined.

(** X3. The pass works on each pixel on its own: binarizing a buffer that
    starts with whole pixels is binarizing that front part and the rest
    separately. *)
Theorem convertToBinary_app :
  forall (front back : list Z) (n : nat),
    length front = (4 * n)%nat ->
    convertToBinary (front ++ back)
    = convertToBinary front ++ convertToBinary back.
Proof.
  intros front back n Hlen. rewrite !Binarizer.convertToBinary_pixels.
  apply (MaskFacts.binarize_pixels_app n). exact Hlen.
Qed.

(** One bright pixel, then one dark pixel. *)
Lemma convertToBinary_app_witness :
  convertToBinary ([250; 240; 230; 9] ++ [12; 40; 250; 0])
  = convertToBinary [250; 240; 230; 9] ++ convertToBinary [12; 40; 250; 0].
Proof.
  apply (convertToBinary_app [250; 240; 230; 9] [12; 40; 250; 0] 1).
  reflexivity.
Defined.

(** X4. Rounding never lifts a boundary pixel over the threshold: for bytes
    [r], [g], [b] whose luminance is 128 in exact arithmetic
    (30 r + 59 g + 11 b = 12800), the pixel comes out opaque black. *)
Theorem convertToBinary_exact_boundary :
  forall r g b a : Z,
    0 <= r <= 255 -> 0 <= g <= 255 -> 0 <= b <= 255 ->
    luminance100 r g b = 12800 ->
    convertToBinary [r; g; b; a] = [0; 0; 0; 255].
Proof.
  intros r g b a Hr Hg Hb HL.
  pose proof MaskFacts.boundary_is_stain_all as Hall.
  rewrite forallb_forall in Hall.
  specialize (Hall r (MaskFacts.In_byte_values r Hr)).
  rewrite forallb_forall in Hall.
  specialize (Hall g (MaskFacts.In_byte_values g Hg)).
  unfold boundary_is_stain in Hall. unfold luminance100 in HL.
  replace (12800 - 30 * r - 59 * g) with (b * 11) in Hall by lia.
  rewrite Z.mod_mul, Z.div_mul in Hall by lia.
  destruct (Z.leb_spec 0 b); [|lia]. destruct (Z.leb_spec b 255); [|lia].
  cbn [Z.eqb andb] in Hall. apply negb_true_iff in Hall.
  rewrite Binarizer.convertToBinary_pixels.
  cbn [binarize_pixels]. unfold binaryValue. rewrite Hall. reflexivity.
Qed.

(** Mid grey (128, 128, 128): 127.99999999999999 in binary64. *)
Lemma convertToBinary_exact_boundary_witness :
  convertToBinary [128; 128; 128; 255] = [0; 0; 0; 255].
Proof.
  apply convertToBinary_exact_boundary; unfold luminance100; lia.
Defined.

End MaskProperties.

(** ** The sampler, point by point *)

Module SamplerFacts.
Import JS UploadImage SamplePlan.

(** The loop pushes, turn after turn, the points of the next pairs of
    draws. *)
Lemma generate_loop_points (Math_random : nat -> number) (width height : N)
    (n : Z) (fuel : nat) :
  forall (i : Z) (draws : nat) (points : list Point),
    fuel = Z.to_nat (n - i) ->
    generate_loop Math_random width height fuel i n draws points
    = points ++ map (fun j => point_at Math_random width height (draws + 2 * j))
                    (seq 0 fuel).
Proof.
  induction fuel as [|fuel IH]; intros i draws points Hfuel;
    cbn [generate_loop].
  - cbn. rewrite app_nil_r. reflexivity.
  - destruct (Z.ltb_spec i n) as [_|Hge]; [|lia].
    rewrite IH by lia. rewrite <- app_assoc. f_equal.
    cbn [seq map app]. f_equal.
    + unfold point_at. repeat f_equal; lia.
    + rewrite <- seq_shift, map_map. apply map_ext. intros j.
      f_equal. lia.
Qed.

End SamplerFacts.

(** X5. Asked for [n >= 0] points, [generateRandomPoints] returns exactly
    [n] points, and its [k]-th point takes [x] from draw [2 k] and [y] from
    draw [2 k + 1] of [Math.random], each floored after scaling by the canvas
    width and height. *)
Theorem generateRandomPoints_points :
  forall (Math_random : nat -> JS.number) (width height : N) (n : Z),
    0 <= n ->
    exists points : list Point,
      UploadImage.generateRandomPoints Math_random width height n
        = JS.Return points /\
      Z.of_nat (length points) = n /\
      (forall k : nat,
          Z.of_nat k < n ->
          points !! k
          = Some (SamplePlan.point_at Math_random width height (2 * k))).
Proof.
  intros Math_random width height n Hn.
  unfold UploadImage.generateRandomPoints.
  rewrite SamplerFacts.generate_loop_points by (f_equal; lia).
  eexists. split; [reflexivity|]. cbn [app]. split.
  - rewrite length_map, length_seq. lia.
  - intros k Hk. rewrite list_lookup_fmap.
    rewrite lookup_seq_lt by lia. reflexivity.
Qed.

(** Two points from a source that alternates 0.25 and 0.75. *)
Lemma generateRandomPoints_points_witness :
  exists points : list Point,
    UploadImage.generateRandomPoints
      (fun k => if Nat.even k then 0.25%float else 0.75%float) 640 480 2
      = JS.Return points /\
    points !! 1%nat = Some {| x := 160; y := 360 |}.
Proof.
  destruct (generateRandomPoints_points
              (fun k => if Nat.even k then 0.25%float else 0.75%float)
              640 480 2) as (points & Hret & _ & Hk); [lia|].
  exists points. split; [exact Hret|].
  rewrite (Hk 1%nat) by lia. vm_compute. reflexivity.
Defined.

(** ** The estimator's buffers and the log over several calls *)

Module OverlayFacts.
Import JS Canvas CalculationService Estimation.

(** [overlayImage], stage by stage. *)
Lemma overlayImage_spec (b : Browser) (image : HTMLImageElement)
    (points : list Point) :
  overlayImage b image points =
  if getContext2d b OverlayCanvas then
    if ((width image =? 0) || (height image =? 0))%N
    then Throw (DOMException "IndexSizeError")
    else
      Return ({| pixels := fold_left (drawPoint b (width image)) points
                             (drawImage image) |},
              {| pixels := drawImage image |})
  else Throw (Error "Could not get canvas context").
Proof.
  unfold overlayImage, getImageData.
  destruct (getContext2d b OverlayCanvas); [|reflexivity].
  destruct ((width image =? 0) || (height image =? 0))%N; reflexivity.
Qed.

(** No pixel is black and red at once. *)
Lemma count_pixels_same (canvas : list rgba) : count_pixels canvas canvas = 0.
Proof.
  induction canvas as [|[[[r g] b] a] canvas IH]; [reflexivity|].
  cbn [count_pixels]. rewrite IH.
  unfold is_black, is_red.
  destruct (Z.eqb_spec r 0) as [-> | _]; [|reflexivity].
  cbn. rewrite andb_false_r. reflexivity.
Qed.

Lemma drawImage_bitmap (image : HTMLImageElement) :
  length (bitmap image) = N.to_nat (width image * height image) ->
  drawImage image = bitmap image.
Proof. intros H. unfold drawImage. rewrite <- H. apply resize_all. Qed.

(** What a call leaves of [results]: the list before, and what it added. *)
Lemma after_appends (b : Browser) (c : call) (s : state) :
  exists added : list CalculationResult.t,
    after b c s = s ++ added /\ (length added <= 1)%nat.
Proof.
  destruct c as [data|result|image points]; cbn [after].
  - destruct (Estimator.getResults_cases b data s) as [[e H] | [r H]];
      rewrite H; cbn [snd].
    + exists []. rewrite app_nil_r. split; [reflexivity | cbn; lia].
    + exists [r]. split; [reflexivity | cbn; lia].
  - exists [result]. split; [reflexivity | cbn; lia].
  - exists []. cbn. rewrite app_nil_r. split; [reflexivity | lia].
Qed.

End OverlayFacts.

Section EstimatorProperties.
Import JS Canvas CalculationService Estimation ServiceRuns.

(** X6. When [overlayImage] returns, the original buffer holds the pixels of
    the image as drawn, whatever the points and whatever the markers do
    (the bitmap itself for an image of [width * height] pixels), and both
    buffers have [4 * width * height] bytes.  It throws only when there is
    no 2D context or the image has no area. *)
Theorem overlayImage_buffers :
  forall (b : Browser) (image : HTMLImageElement) (points : list Point),
    match overlayImage b image points with
    | Return (overlayImageData, originalImageData) =>
        pixels originalImageData = drawImage image /\
        (length (bitmap image) = N.to_nat (width image * height image) ->
         pixels originalImageData = bitmap image) /\
        length (data originalImageData)
          = (4 * N.to_nat (width image * height image))%nat /\
        length (data overlayImageData)
          = (4 * N.to_nat (width image * height image))%nat
    | Throw _ =>
        getContext2d b OverlayCanvas = false \/
        width image = 0%N \/ height image = 0%N
    end.
Proof.
  intros b image points. rewrite OverlayFacts.overlayImage_spec.
  destruct (getContext2d b OverlayCanvas); [|left; reflexivity].
  destruct (N.eqb_spec (width image) 0) as [Hw|Hw];
    [cbn [orb]; right; left; exact Hw|].
  destruct (N.eqb_spec (height image) 0) as [Hh|Hh];
    [cbn [orb]; right; right; exact Hh|].
  cbn [orb]. rewrite !Estimator.length_data. cbn [pixels].
  rewrite Estimator.length_drawPoints, Estimator.length_drawImage.
  repeat split. apply OverlayFacts.drawImage_bitmap.
Qed.

(** X7. With no points nothing is drawn and nothing is counted: the
    overlay [getPointsInside] returns is the image as drawn, and
    [pointsInside] is 0. *)
Theorem getPointsInside_no_points :
  forall (b : Browser) (image : HTMLImageElement),
    match getPointsInside b [] image with
    | Return (overlayImageData, pointsInside) =>
        pixels overlayImageData = drawImage image /\ pointsInside = 0
    | Throw _ =>
        getContext2d b OverlayCanvas = false \/
        width image = 0%N \/ height image = 0%N
    end.
Proof.
  intros b image. rewrite Estimator.getPointsInside_spec.
  destruct (getContext2d b OverlayCanvas); [|left; reflexivity].
  destruct (N.eqb_spec (width image) 0) as [Hw|Hw];
    [cbn [orb]; right; left; exact Hw|].
  destruct (N.eqb_spec (height image) 0) as [Hh|Hh];
    [cbn [orb]; right; right; exact Hh|].
  cbn [orb fold_left pixels]. cbv zeta. cbn [fold_left pixels].
  split; [reflexivity | apply OverlayFacts.count_pixels_same].
Qed.

(** X8. Given an image of non-zero area, at least 3 points and a 2D context
    on both canvases, [getResults] appends exactly one result and returns
    the new list.  The result carries the points and the image it was
    given, and a modified image of the same width and height with
    [width * height] pixels. *)
Theorem getResults_appends_one :
  forall (b : Browser) (data : CalculationInput.t) (s : state)
         (image : HTMLImageElement) (points : list Point),
    CalculationInput.image data = Some image ->
    CalculationInput.points data = Some points ->
    (3 <= length points)%nat ->
    getContext2d b OverlayCanvas = true ->
    getContext2d b ExportCanvas = true ->
    width image <> 0%N ->
    height image <> 0%N ->
    exists result : CalculationResult.t,
      getResults b data s = (Return (s ++ [result]), s ++ [result]) /\
      CalculationResult.points result = points /\
      CalculationResult.originalImage result = image /\
      width (CalculationResult.modifiedImage result) = width image /\
      height (CalculationResult.modifiedImage result) = height image /\
      length (bitmap (CalculationResult.modifiedImage result))
        = N.to_nat (width image * height image).
Proof.
  intros b data s image points Himage Hpoints Hlen Hov Hex Hw Hh.
  rewrite Estimator.getResults_spec, Himage, Hpoints.
  destruct (Nat.ltb_spec (length points) 3) as [Hlt|_]; [lia|].
  rewrite Estimator.getPointsInside_spec, Hov.
  destruct (N.eqb_spec (width image) 0) as [?|_]; [contradiction|].
  destruct (N.eqb_spec (height image) 0) as [?|_]; [contradiction|].
  cbn [orb]. cbv zeta. rewrite Hex.
  eexists. split; [reflexivity|].
  cbn [CalculationResult.points CalculationResult.originalImage
       CalculationResult.modifiedImage width height bitmap pixels].
  repeat split.
  rewrite Estimator.length_drawPoints. apply Estimator.length_drawImage.
Qed.

(** Three points on a 10 x 10 black image, from the empty list. *)
Lemma getResults_appends_one_witness :
  exists result : CalculationResult.t,
    getResults reference_browser
      {| CalculationInput.points := Some [centre; centre; centre];
         CalculationInput.image := Some (uniform_image 10 10 black) |}
      initial
    = (Return (initial ++ [result]), initial ++ [result]) /\
    CalculationResult.points result = [centre; centre; centre].
Proof.
  destruct (getResults_appends_one reference_browser
              {| CalculationInput.points := Some [centre; centre; centre];
                 CalculationInput.image := Some (uniform_image 10 10 black) |}
              initial (uniform_image 10 10 black) [centre; centre; centre]
              eq_refl eq_refl) as (result & Hrun & Hpoints & _).
  - cbn [length]. lia.
  - reflexivity.
  - reflexivity.
  - discriminate.
  - discriminate.
  - exists result. split; [exact Hrun | exact Hpoints].
Defined.

(** X9. Over any sequence of calls of the service's public methods,
    [results] only grows at its end: what was there stays in place, and at
    most one result is added per call. *)
Theorem run_appends :
  forall (b : Browser) (calls : list call) (s : state),
    exists added : list CalculationResult.t,
      run b calls s = s ++ added /\ (length added <= length calls)%nat.
Proof.
  intros b calls. unfold run.
  induction calls as [|c calls IH]; intros s.
  - exists []. rewrite app_nil_r. split; [reflexivity | cbn; lia].
  - cbn [fold_left].
    destruct (OverlayFacts.after_appends b c s) as (first & Hfirst & Hone).
    destruct (IH (after b c s)) as (rest & Hrest & Hlen).
    exists (first ++ rest). rewrite Hrest, Hfirst, <- app_assoc.
    split; [reflexivity|]. rewrite length_app. cbn [length]. lia.
Qed.

(** X10. What [getResults] adds does not depend on what [results] already
    holds: the same input adds the same entries to any list. *)
Theorem getResults_independent_of_log :
  forall (b : Browser) (data : CalculationInput.t),
    exists added : list CalculationResult.t,
      (length added <= 1)%nat /\
      forall s : state, snd (getResults b data s) = s ++ added.
Proof.
  intros b data.
  destruct (getResults b data initial) as [c0 s0] eqn:H0.
  rewrite Estimator.getResults_spec in H0.
  destruct (CalculationInput.image data) as [image|] eqn:Himage.
  2:{ exists []. split; [cbn; lia|]. intros s.
      rewrite Estimator.getResults_spec, Himage. cbn. rewrite app_nil_r.
      reflexivity. }
  destruct (CalculationInput.points data) as [points|] eqn:Hpoints.
  2:{ exists []. split; [cbn; lia|]. intros s.
      rewrite Estimator.getResults_spec, Himage, Hpoints. cbn.
      rewrite app_nil_r. reflexivity. }
  destruct (length points <? 3)%nat eqn:Hlen.
  { exists []. split; [cbn; lia|]. intros s.
    rewrite Estimator.getResults_spec, Himage, Hpoints, Hlen. cbn.
    rewrite app_nil_r. reflexivity. }
  destruct (getPointsInside b points image) as [[overlay n]|e] eqn:Hget.
  2:{ exists []. split; [cbn; lia|]. intros s.
      rewrite Estimator.getResults_spec, Himage, Hpoints, Hlen, Hget. cbn.
      rewrite app_nil_r. reflexivity. }
  destruct (getContext2d b ExportCanvas) eqn:Hex.
  - eexists [_]. split; [cbn; lia|]. intros s.
    rewrite Estimator.getResults_spec, Himage, Hpoints, Hlen, Hget, Hex.
    cbv zeta. cbn [snd]. reflexivity.
  - exists []. split; [cbn; lia|]. intros s.
    rewrite Estimator.getResults_spec, Himage, Hpoints, Hlen, Hget, Hex.
    cbn. rewrite app_nil_r. reflexivity.
Qed.

End EstimatorProperties.

(** ** The carousel *)

Module CarouselFacts.
Import Carousel.

(** The remainder of a number within two turns of the divisor. *)
Lemma rem_wrap (a n : Z) :
  0 <= a < 2 * n ->
  Z.rem a n = if a <? n then a else a - n.
Proof.
  intros Ha. rewrite Z.rem_mod_nonneg by lia.
  destruct (Z.ltb_spec a n); [apply Z.mod_small; lia|].
  symmetry. apply (Z.mod_unique_pos a n 1); lia.
Qed.

Lemma images_length_nonzero (c : t) (i : Z) :
  0 <= i < Z.of_nat (length (images c)) ->
  (Z.of_nat (length (images c)) =? 0) = false.
Proof. intros Hi. apply Z.eqb_neq. lia. Qed.

Lemma currentIndex_nextSlide (c : t) (i : Z) :
  currentIndex c = Int i ->
  0 <= i < Z.of_nat (length (images c)) ->
  currentIndex (nextSlide c)
  = Int (if i + 1 =? Z.of_nat (length (images c)) then 0 else i + 1).
Proof.
  intros Hc Hi. unfold nextSlide, images_length. cbn [currentIndex].
  rewrite Hc. cbn [plus remainder].
  rewrite (images_length_nonzero c i Hi), rem_wrap by lia.
  destruct (Z.ltb_spec (i + 1) (Z.of_nat (length (images c))));
    destruct (Z.eqb_spec (i + 1) (Z.of_nat (length (images c))));
    f_equal; lia.
Qed.

Lemma currentIndex_prevSlide (c : t) (i : Z) :
  currentIndex c = Int i ->
  0 <= i < Z.of_nat (length (images c)) ->
  currentIndex (prevSlide c)
  = Int (if i =? 0 then Z.of_nat (length (images c)) - 1 else i - 1).
Proof.
  intros Hc Hi. unfold prevSlide, images_length. cbn [currentIndex].
  rewrite Hc. cbn [plus minus remainder].
  rewrite (images_length_nonzero c i Hi), rem_wrap by lia.
  destruct (Z.ltb_spec (i - 1 + Z.of_nat (length (images c)))
              (Z.of_nat (length (images c))));
    destruct (Z.eqb_spec i 0); f_equal; lia.
Qed.

(** [k] turns of [nextSlide] from position [i]. *)
Lemma iter_nextSlide (c : t) (i : Z) (k : nat) :
  currentIndex c = Int i ->
  0 <= i < Z.of_nat (length (images c)) ->
  Nat.iter k nextSlide c
  = {| images := images c;
       currentIndex := Int ((i + Z.of_nat k) mod Z.of_nat (length (images c))) |}.
Proof.
  intros Hc Hi. induction k as [|k IH].
  - change (Nat.iter 0 nextSlide c) with c.
    rewrite Z.add_0_r, Z.mod_small by lia.
    destruct c as [imgs idx]. cbn in *. rewrite Hc. reflexivity.
  - change (Nat.iter (S k) nextSlide c)
      with (nextSlide (Nat.iter k nextSlide c)).
    rewrite IH. unfold nextSlide, images_length.
    cbn [images currentIndex plus remainder].
    rewrite (images_length_nonzero c i Hi). f_equal. f_equal.
    rewrite Z.rem_mod_nonneg.
    + rewrite Z.add_mod_idemp_l by lia. f_equal. lia.
    + pose proof (Z.mod_pos_bound (i + Z.of_nat k)
                    (Z.of_nat (length (images c)))). lia.
    + lia.
Qed.

End CarouselFacts.

Section CarouselProperties.
Import Carousel.

(** X11. From the position of an image, [nextSlide] moves one on and
    [prevSlide] one back, wrapping round at the ends; both leave
    [currentIndex] the position of an image. *)
Theorem slides_wrap_round :
  forall (c : t) (i : Z),
    currentIndex c = Int i ->
    0 <= i < Z.of_nat (length (images c)) ->
    currentIndex (nextSlide c)
      = Int (if i + 1 =? Z.of_nat (length (images c)) then 0 else i + 1) /\
    currentIndex (prevSlide c)
      = Int (if i =? 0 then Z.of_nat (length (images c)) - 1 else i - 1) /\
    in_range (nextSlide c) /\ in_range (prevSlide c).
Proof.
  intros c i Hc Hi.
  pose proof (CarouselFacts.currentIndex_nextSlide c i Hc Hi) as Hn.
  pose proof (CarouselFacts.currentIndex_prevSlide c i Hc Hi) as Hp.
  split; [exact Hn|]. split; [exact Hp|]. split.
  - eexists. split; [exact Hn|]. cbn [nextSlide images].
    destruct (Z.eqb_spec (i + 1) (Z.of_nat (length (images c)))); lia.
  - eexists. split; [exact Hp|]. cbn [prevSlide images].
    destruct (Z.eqb_spec i 0); lia.
Qed.

(** The last of three images, and the first. *)
Lemma slides_wrap_round_witness :
  currentIndex
    (nextSlide {| images := ["a"; "b"; "c"]%string; currentIndex := Int 2 |})
  = Int 0.
Proof.
  apply (slides_wrap_round
           {| images := ["a"; "b"; "c"]%string; currentIndex := Int 2 |} 2).
  - reflexivity.
  - cbn [images length]. lia.
Defined.

(** X12. From the position of an image, [prevSlide] undoes [nextSlide] and
    [nextSlide] undoes [prevSlide]. *)
Theorem prevSlide_nextSlide_inverse :
  forall c : t,
    in_range c ->
    prevSlide (nextSlide c) = c /\ nextSlide (prevSlide c) = c.
Proof.
  intros c (i & Hc & Hi).
  pose proof (CarouselFacts.currentIndex_nextSlide c i Hc Hi) as Hn.
  pose proof (CarouselFacts.currentIndex_prevSlide c i Hc Hi) as Hp.
  assert (Hrec : forall c' : t,
             images c' = images c -> currentIndex c' = Int i -> c' = c).
  { intros [imgs idx] Himgs Hidx. destruct c as [imgs0 idx0].
    cbn in *. subst. reflexivity. }
  split; apply Hrec; try reflexivity.
  - rewrite (CarouselFacts.currentIndex_prevSlide (nextSlide c) _ Hn).
    + cbn [nextSlide images]. f_equal.
      destruct (Z.eqb_spec (i + 1) (Z.of_nat (length (images c))));
        [rewrite Z.eqb_refl; lia|].
      destruct (Z.eqb_spec (i + 1) 0); lia.
    + cbn [nextSlide images].
      destruct (Z.eqb_spec (i + 1) (Z.of_nat (length (images c)))); lia.
  - rewrite (CarouselFacts.currentIndex_nextSlide (prevSlide c) _ Hp).
    + cbn [prevSlide images]. f_equal.
      destruct (Z.eqb_spec i 0) as [-> | Hne].
      * rewrite Z.sub_add, Z.eqb_refl. reflexivity.
      * destruct (Z.eqb_spec (i - 1 + 1) (Z.of_nat (length (images c)))); lia.
    + cbn [prevSlide images]. destruct (Z.eqb_spec i 0); lia.
Qed.

(** The first of three images. *)
Lemma prevSlide_nextSlide_inverse_witness :
  prevSlide
    (nextSlide {| images := ["a"; "b"; "c"]%string; currentIndex := Int 0 |})
  = {| images := ["a"; "b"; "c"]%string; currentIndex := Int 0 |}.
Proof.
  apply (prevSlide_nextSlide_inverse
           {| images := ["a"; "b"; "c"]%string; currentIndex := Int 0 |}).
  exists 0. split; [reflexivity | cbn; lia].
Defined.

(** X13. From the position of an image, as many [nextSlide]s as there are
    images come back to it. *)
Theorem nextSlide_full_turn :
  forall c : t,
    in_range c -> Nat.iter (length (images c)) nextSlide c = c.
Proof.
  intros c (i & Hc & Hi).
  rewrite (CarouselFacts.iter_nextSlide c i _ Hc Hi).
  replace ((i + Z.of_nat (length (images c))) mod Z.of_nat (length (images c)))
    with i.
  - destruct c as [imgs idx]. cbn in *. rewrite Hc. reflexivity.
  - rewrite <- (Z.mul_1_l (Z.of_nat (length (images c)))) at 1.
    rewrite Z.mod_add by lia. symmetry. apply Z.mod_small. lia.
Qed.

(** Three images, from the second. *)
Lemma nextSlide_full_turn_witness :
  nextSlide
    (nextSlide
       (nextSlide
          {| images := ["a"; "b"; "c"]%string; currentIndex := Int 1 |}))
  = {| images := ["a"; "b"; "c"]%string; currentIndex := Int 1 |}.
Proof.
  apply (nextSlide_full_turn
           {| images := ["a"; "b"; "c"]%string; currentIndex := Int 1 |}).
  exists 1. split; [reflexivity | cbn; lia].
Defined.

(** X14. With no images, or once [currentIndex] is NaN, [nextSlide] and
    [prevSlide] leave [currentIndex] NaN. *)
Theorem slides_without_images :
  forall c : t,
    images c = [] \/ currentIndex c = NaN ->
    currentIndex (nextSlide c) = NaN /\ currentIndex (prevSlide c) = NaN.
Proof.
  intros [imgs idx] [Himgs | Hidx]; cbn [images currentIndex] in *.
  - subst imgs. destruct idx; split; reflexivity.
  - subst idx. split; reflexivity.
Qed.

(** An empty carousel at index 0. *)
Lemma slides_without_images_witness :
  currentIndex (nextSlide {| images := []; currentIndex := Int 0 |}) = NaN.
Proof.
  exact (proj1 (slides_without_images
                  {| images := []; currentIndex := Int 0 |}
                  (or_introl eq_refl))).
Defined.

(** X15. [goToSlide] stores any index unchecked.  With at least one image,
    one [nextSlide] brings an index from -1 on back to the position of an
    image, while from an index below -1 it ends at 0 or below. *)
Theorem nextSlide_after_goToSlide :
  forall (c : t) (i : Z),
    images c <> [] ->
    currentIndex (goToSlide (Int i) c) = Int i /\
    (-1 <= i -> in_range (nextSlide (goToSlide (Int i) c))) /\
    (i < -1 ->
     exists j : Z,
       currentIndex (nextSlide (goToSlide (Int i) c)) = Int j /\
       - Z.of_nat (length (images c)) < j <= 0).
Proof.
  intros c i Himgs.
  assert (Hlen : 0 < Z.of_nat (length (images c))).
  { destruct (images c); [contradiction | cbn [length]; lia]. }
  split; [reflexivity|].
  unfold in_range, nextSlide, goToSlide, images_length.
  cbn [images currentIndex plus remainder].
  destruct (Z.eqb_spec (Z.of_nat (length (images c))) 0); [lia|].
  split.
  - intros Hi. eexists. split; [reflexivity|].
    apply Z.rem_bound_pos; lia.
  - intros Hi. eexists. split; [reflexivity|].
    replace (i + 1) with (- (- (i + 1))) by lia. rewrite Z.rem_opp_l'.
    pose proof (Z.rem_bound_pos (- (i + 1)) (Z.of_nat (length (images c)))).
    lia.
Qed.

(** Three images, asked for slide 7. *)
Lemma nextSlide_after_goToSlide_witness :
  in_range
    (nextSlide
       (goToSlide (Int 7)
          {| images := ["a"; "b"; "c"]%string; currentIndex := Int 0 |})).
Proof.
  apply (nextSlide_after_goToSlide
           {| images := ["a"; "b"; "c"]%string; currentIndex := Int 0 |} 7).
  - discriminate.
  - lia.
Defined.

End CarouselProperties.

(** ** The tabs of the root component *)

Module TabFacts.
Import AppComponent.

(** Splitting at ['/'] a string that starts with a segment free of it. *)
Lemma split_segment (seg : string) :
  no_slash seg = true ->
  split "/" seg = [seg] /\
  forall rest : string,
    split "/" (String.append seg (String "/" rest)) = seg :: split "/" rest.
Proof.
  induction seg as [|c seg IH]; intros Hseg.
  - split; [reflexivity|]. intros rest. reflexivity.
  - cbn [no_slash] in Hseg. apply andb_true_iff in Hseg as [Hc Hseg].
    apply negb_true_iff in Hc. destruct (IH Hseg) as [IH1 IH2].
    split.
    + cbn [split]. rewrite Hc, IH1. reflexivity.
    + intros rest. cbn [String.append split]. rewrite Hc, IH2. reflexivity.
Qed.

Lemma eqb_empty (s : string) : s <> ""%string -> String.eqb s "" = false.
Proof. intros H. apply String.eqb_neq. exact H. Qed.

Lemma no_slash_tab_name (tab : Tab) : no_slash (tab_name tab) = true.
Proof. destruct tab; reflexivity. Qed.

Lemma tab_name_not_empty (tab : Tab) : tab_name tab <> ""%string.
Proof. destruct tab; discriminate. Qed.

(** The router event for ["/" ++ seg], with or without more path behind. *)
Lemma onRouterEvent_segment (c : t) (seg : string) :
  no_slash seg = true ->
  seg <> ""%string ->
  onRouterEvent (String "/" seg) c = {| currentTab := seg |} /\
  forall rest : string,
    onRouterEvent (String "/" (String.append seg (String "/" rest))) c
    = {| currentTab := seg |}.
Proof.
  intros Hseg Hne. destruct (split_segment seg Hseg) as [H1 H2].
  unfold onRouterEvent. cbn [split Ascii.eqb Bool.eqb].
  split.
  - rewrite H1. cbn. rewrite (eqb_empty seg Hne). reflexivity.
  - intros rest. rewrite H2. cbn. rewrite (eqb_empty seg Hne). reflexivity.
Qed.

End TabFacts.

Section TabProperties.
Import AppComponent.

(** X16. On a router event, [currentTab] becomes the first path segment of
    the URL: for a URL ["/seg"] or ["/seg/..."] with [seg] not empty, it is
    [seg], whether or not [seg] names a tab. *)
Theorem onRouterEvent_first_segment :
  forall (c : t) (seg : string),
    no_slash seg = true ->
    seg <> ""%string ->
    currentTab (onRouterEvent (String "/" seg) c) = seg /\
    forall rest : string,
      currentTab
        (onRouterEvent (String "/" (String.append seg (String "/" rest))) c)
      = seg.
Proof.
  intros c seg Hseg Hne.
  destruct (TabFacts.onRouterEvent_segment c seg Hseg Hne) as [H1 H2].
  split; [rewrite H1; reflexivity|].
  intros rest. rewrite H2. reflexivity.
Qed.

(** The URL of the calculation page with a further segment. *)
Lemma onRouterEvent_first_segment_witness :
  currentTab (onRouterEvent "/calculate/3" initial) = "calculate"%string.
Proof.
  apply (proj2 (onRouterEvent_first_segment initial "calculate"
                  eq_refl ltac:(discriminate)) "3"%string).
Defined.

(** X17. A router event whose URL has no first path segment leaves
    [currentTab] as it is: a URL with no ['/'], the root URL ["/"], and a
    URL that starts with ["//"]. *)
Theorem onRouterEvent_no_segment :
  forall c : t,
    (forall url : string, no_slash url = true -> onRouterEvent url c = c) /\
    onRouterEvent "/" c = c /\
    (forall rest : string, onRouterEvent (String "/" (String "/" rest)) c = c).
Proof.
  intros c. split; [|split].
  - intros url Hurl. unfold onRouterEvent.
    rewrite (proj1 (TabFacts.split_segment url Hurl)). reflexivity.
  - reflexivity.
  - intros rest. unfold onRouterEvent. cbn [split Ascii.eqb Bool.eqb].
    reflexivity.
Qed.

(** X18. After [setTab(tab)], [isActive] holds of the name of [tab] and of
    no other string, and the router event for the URL [setTab] asked for
    leaves the component as [setTab] left it. *)
Theorem setTab_isActive :
  forall (tab : Tab) (c : t) (name : string),
    (isActive name (fst (setTab tab c)) = true <-> name = tab_name tab) /\
    onRouterEvent (snd (setTab tab c)) (fst (setTab tab c))
    = fst (setTab tab c).
Proof.
  intros tab c name. split.
  - unfold isActive, setTab. cbn [fst currentTab].
    rewrite String.eqb_eq. split; intros H; symmetry; exact H.
  - unfold setTab. cbn [fst snd String.append].
    apply (proj1 (TabFacts.onRouterEvent_segment _ (tab_name tab)
                    (TabFacts.no_slash_tab_name tab)
                    (TabFacts.tab_name_not_empty tab))).
Qed.

End TabProperties.

(** ** From the upload to the estimate *)

Module UploadFacts.
Import JS Canvas UploadImage BinaryMask Estimation UploadImageComponent.

(** A binarized pixel is black exactly when the pixel is stain. *)
Lemma is_black_binarize_pixel (p : rgba) :
  is_black (binarize_pixel p) = is_stain p.
Proof.
  destruct p as [[[r g] b] a]. unfold binarize_pixel, is_stain, binaryValue.
  destruct (128 <? grayscale (number_of_Z r) (number_of_Z g) (number_of_Z b))%float;
    reflexivity.
Qed.

Lemma count_black_binarized (px : list rgba) :
  count_black (map binarize_pixel px) = count_stain px.
Proof.
  induction px as [|p px IH]; [reflexivity|].
  cbn [map count_black count_stain].
  rewrite is_black_binarize_pixel, IH. reflexivity.
Qed.

Lemma count_stain_bounds (px : list rgba) :
  0 <= count_stain px <= Z.of_nat (length px).
Proof.
  induction px as [|p px IH]; cbn [count_stain length]; [lia|].
  destruct (is_stain p); lia.
Qed.

(** The handler on an image of non-zero area. *)
Lemma onImageLoad_spec (Math_random : nat -> number) (img : HTMLImageElement)
    (c : t) :
  width img <> 0%N ->
  height img <> 0%N ->
  onImageLoad Math_random img c =
  let shown :=
    {| canvas_width := width img;
       canvas_height := height img;
       canvas_pixels := map binarize_pixel (drawImage img);
       imageLoaded := true;
       showButton := true;
       showSlider := true;
       numberPoints := numberPoints c;
       points := points c |} in
  match generate Math_random shown with
  | Throw e => (Throw e, shown)
  | Return sampled =>
      (Return tt,
       {| canvas_width := width img;
          canvas_height := height img;
          canvas_pixels := map binarize_pixel (drawImage img);
          imageLoaded := true;
          showButton := true;
          showSlider := true;
          numberPoints := numberPoints c;
          points := sampled |})
  end.
Proof.
  intros Hw Hh. unfold onImageLoad, convertToBinary_canvas, getImageData.
  cbn [canvas_width canvas_height canvas_pixels].
  destruct (N.eqb_spec (width img) 0) as [?|_]; [contradiction|].
  destruct (N.eqb_spec (height img) 0) as [?|_]; [contradiction|].
  cbn [orb]. unfold data. cbn [pixels].
  rewrite MaskFacts.convertToBinary_data, MaskFacts.pixels_of_bytes_data.
  reflexivity.
Qed.

(** [generate] never throws; it returns as many points as [numberPoints]
    asks for, none when that is NaN or below 1. *)
Lemma generate_returns (Math_random : nat -> number) (c : t) :
  exists sampled : list Point,
    generate Math_random c = Return sampled /\
    match numberPoints c with
    | Some n => if 0 <=? n then Z.of_nat (length sampled) = n else sampled = []
    | None => sampled = []
    end.
Proof.
  unfold generate. destruct (numberPoints c) as [n|].
  - destruct (Z.leb_spec 0 n) as [Hn|Hn].
    + destruct (Sampler.length_generateRandomPoints Math_random
                  (canvas_width c) (canvas_height c) n Hn)
        as (sampled & Hret & Hlen).
      exists sampled. split; [exact Hret | exact Hlen].
    + exists []. split; [|reflexivity].
      unfold generateRandomPoints. replace (Z.to_nat n) with 0%nat by lia.
      reflexivity.
  - exists []. split; reflexivity.
Qed.

End UploadFacts.

Section UploadProperties.
Import JS Canvas UploadImage BinaryMask Estimation UploadImageComponent
       CalculationService.

(** X19. When an image of non-zero area has loaded, the canvas has the size
    of the image and holds its binarized pixels, each opaque black or opaque
    white; the button and the slider are shown; [numberPoints] is unchanged
    and, when it is an integer [n >= 0], [points] holds [n] points. *)
Theorem onImageLoad_binarizes :
  forall (Math_random : nat -> number) (img : HTMLImageElement) (c : t),
    width img <> 0%N ->
    height img <> 0%N ->
    exists c' : t,
      onImageLoad Math_random img c = (Return tt, c') /\
      canvas_width c' = width img /\
      canvas_height c' = height img /\
      canvas_pixels c' = map binarize_pixel (drawImage img) /\
      Forall (fun p => p = black \/ p = white) (canvas_pixels c') /\
      length (canvas_pixels c') = N.to_nat (width img * height img) /\
      imageLoaded c' = true /\ showButton c' = true /\ showSlider c' = true /\
      numberPoints c' = numberPoints c /\
      (forall n : Z,
          numberPoints c = Some n -> 0 <= n ->
          Z.of_nat (length (points c')) = n).
Proof.
  intros Math_random img c Hw Hh.
  rewrite (UploadFacts.onImageLoad_spec Math_random img c Hw Hh). cbv zeta.
  destruct (UploadFacts.generate_returns Math_random
              {| canvas_width := width img;
                 canvas_height := height img;
                 canvas_pixels := map binarize_pixel (drawImage img);
                 imageLoaded := true;
                 showButton := true;
                 showSlider := true;
                 numberPoints := numberPoints c;
                 points := points c |}) as (sampled & Hgen & Hcount).
  rewrite Hgen. eexists. split; [reflexivity|].
  cbn [canvas_width canvas_height canvas_pixels imageLoaded showButton
       showSlider numberPoints points] in *.
  repeat split.
  - apply Forall_forall. intros p Hp. apply list_elem_of_In in Hp.
    apply in_map_iff in Hp as (q & <- & _).
    apply MaskFacts.binarize_pixel_cases.
  - rewrite length_map. apply Estimator.length_drawImage.
  - intros n Hn Hpos. rewrite Hn in Hcount.
    destruct (Z.leb_spec 0 n); [exact Hcount | lia].
Qed.

(** A 2 x 1 image, one bright pixel and one dark, with three points asked
    for. *)
Lemma onImageLoad_binarizes_witness :
  exists c' : t,
    onImageLoad (fun _ => 0.5%float)
      {| width := 2; height := 1;
         bitmap := [(250, 240, 230, 255); (12, 40, 250, 255)] |}
      {| canvas_width := 300; canvas_height := 150; canvas_pixels := [];
         imageLoaded := false; showButton := false; showSlider := false;
         numberPoints := Some 3; points := [] |}
    = (Return tt, c') /\
    canvas_pixels c' = [white; black] /\
    Z.of_nat (length (points c')) = 3.
Proof.
  destruct (onImageLoad_binarizes (fun _ => 0.5%float)
              {| width := 2; height := 1;
                 bitmap := [(250, 240, 230, 255); (12, 40, 250, 255)] |}
              {| canvas_width := 300; canvas_height := 150;
                 canvas_pixels := [];
                 imageLoaded := false; showButton := false;
                 showSlider := false;
                 numberPoints := Some 3; points := [] |})
    as (c' & Hrun & _ & _ & Hpx & _ & _ & _ & _ & _ & _ & Hn).
  - discriminate.
  - discriminate.
  - exists c'. split; [exact Hrun|]. split.
    + rewrite Hpx. vm_compute. reflexivity.
    + apply Hn; [reflexivity | lia].
Defined.

(** X20. When the image that loaded has no area, the handler stops at
    [getImageData] with an [IndexSizeError]: the canvas has taken the size
    of the image, but [imageLoaded], the button, the slider and the points
    are as before. *)
Theorem onImageLoad_empty_image :
  forall (Math_random : nat -> number) (img : HTMLImageElement) (c : t),
    width img = 0%N \/ height img = 0%N ->
    exists c' : t,
      onImageLoad Math_random img c
        = (Throw (DOMException "IndexSizeError"), c') /\
      canvas_width c' = width img /\
      canvas_height c' = height img /\
      imageLoaded c' = imageLoaded c /\
      showButton c' = showButton c /\
      showSlider c' = showSlider c /\
      numberPoints c' = numberPoints c /\
      points c' = points c.
Proof.
  intros Math_random img c Hzero.
  unfold onImageLoad, convertToBinary_canvas, getImageData.
  cbn [canvas_width canvas_height canvas_pixels].
  assert (Hor : ((width img =? 0) || (height img =? 0))%N = true).
  { destruct Hzero as [-> | ->]; [reflexivity|].
    apply orb_true_r. }
  rewrite Hor. eexists. split; [reflexivity|]. repeat split.
Qed.

(** An image of width 0. *)
Lemma onImageLoad_empty_image_witness :
  exists c' : t,
    onImageLoad (fun _ => 0.5%float)
      {| width := 0; height := 5; bitmap := [] |}
      {| canvas_width := 300; canvas_height := 150; canvas_pixels := [];
         imageLoaded := false; showButton := false; showSlider := false;
         numberPoints := Some 100; points := [] |}
    = (Throw (DOMException "IndexSizeError"), c') /\
    imageLoaded c' = false.
Proof.
  destruct (onImageLoad_empty_image (fun _ => 0.5%float)
              {| width := 0; height := 5; bitmap := [] |}
              {| canvas_width := 300; canvas_height := 150;
                 canvas_pixels := [];
                 imageLoaded := false; showButton := false;
                 showSlider := false;
                 numberPoints := Some 100; points := [] |}
              (or_introl eq_refl))
    as (c' & Hrun & _ & _ & Hloaded & _).
  exists c'. split; [exact Hrun | exact Hloaded].
Defined.

(** X21. [onSliderChange] stores what [parseInt] made of the slider's value
    and samples afresh: the earlier points are dropped, not added to.  For an
    integer [n >= 0] there are [n] new points; for NaN or a negative number
    there are none.  The canvas and the flags are untouched. *)
Theorem onSliderChange_resamples :
  forall (parseInt : string -> option Z) (Math_random : nat -> number)
         (value : string) (c : t),
    exists c' : t,
      onSliderChange parseInt Math_random value c = (Return tt, c') /\
      numberPoints c' = parseInt value /\
      match parseInt value with
      | Some n =>
          if 0 <=? n then Z.of_nat (length (points c')) = n
          else points c' = []
      | None => points c' = []
      end /\
      canvas_width c' = canvas_width c /\
      canvas_height c' = canvas_height c /\
      canvas_pixels c' = canvas_pixels c /\
      imageLoaded c' = imageLoaded c /\
      showButton c' = showButton c /\
      showSlider c' = showSlider c.
Proof.
  intros parseInt Math_random value c. unfold onSliderChange. cbv zeta.
  destruct (UploadFacts.generate_returns Math_random
              {| canvas_width := canvas_width c;
                 canvas_height := canvas_height c;
                 canvas_pixels := canvas_pixels c;
                 imageLoaded := imageLoaded c;
                 showButton := showButton c;
                 showSlider := showSlider c;
                 numberPoints := parseInt value;
                 points := points c |}) as (sampled & Hgen & Hcount).
  rewrite Hgen. eexists. split; [reflexivity|].
  cbn [canvas_width canvas_height canvas_pixels imageLoaded showButton
       showSlider numberPoints points] in *.
  repeat split. exact Hcount.
Qed.

End UploadProperties.

Section PipelineProperties.
Import JS Canvas UploadImage BinaryMask Estimation UploadImageComponent
       CalculationService.

(** X22. From the upload to the estimate.  For an uploaded image of non-zero
    area, [numberPoints] an integer [n >= 3] and a 2D context on every
    canvas: the load handler succeeds, and the navigation that follows makes
    [getResults] append exactly one result.  Its original image is the
    binarized canvas, not the image uploaded; it carries the [n] sampled
    points; and the count behind its area is at most the number of stain
    pixels of the uploaded image (luminance not above 128), so it is 0 for an
    image with no stain. *)
Theorem upload_then_estimate :
  forall (b : Browser) (Math_random : nat -> number) (img : HTMLImageElement)
         (c : t) (s : state) (n : Z),
    width img <> 0%N ->
    height img <> 0%N ->
    numberPoints c = Some n ->
    3 <= n ->
    getContext2d b OverlayCanvas = true ->
    getContext2d b ExportCanvas = true ->
    exists (c' : t) (result : CalculationResult.t) (pointsInside : Z),
      onImageLoad Math_random img c = (Return tt, c') /\
      CalculateAreaComponent.onNavigation b (Some (navigateToCalculate c')) s
        = (Return (Some (s ++ [result])), s ++ [result]) /\
      CalculationResult.originalImage result
        = {| width := width img; height := height img;
             bitmap := map binarize_pixel (drawImage img) |} /\
      CalculationResult.points result = points c' /\
      Z.of_nat (length (points c')) = n /\
      pointsInside_of
        (getPointsInside b (points c') (Image (navigateToCalculate c')))
        = Some pointsInside /\
      0 <= pointsInside <= count_stain (drawImage img) /\
      CalculationResult.area result
        = estimatedArea (totalArea img) pointsInside (length (points c')).
Proof.
  intros b Math_random img c s n Hw Hh Hn Hn3 Hov Hex.
  rewrite (UploadFacts.onImageLoad_spec Math_random img c Hw Hh). cbv zeta.
  destruct (UploadFacts.generate_returns Math_random
              {| canvas_width := width img;
                 canvas_height := height img;
                 canvas_pixels := map binarize_pixel (drawImage img);
                 imageLoaded := true;
                 showButton := true;
                 showSlider := true;
                 numberPoints := numberPoints c;
                 points := points c |}) as (sampled & Hgen & Hcount).
  rewrite Hgen. cbn [numberPoints] in Hcount. rewrite Hn in Hcount.
  destruct (Z.leb_spec 0 n) as [_|?]; [|lia].
  set (mask := {| width := width img; height := height img;
                  bitmap := map binarize_pixel (drawImage img) |}).
  assert (Hdraw : drawImage mask = map binarize_pixel (drawImage img)).
  { apply OverlayFacts.drawImage_bitmap. cbn [mask bitmap width height].
    rewrite length_map. apply Estimator.length_drawImage. }
  eexists. exists
    {| CalculationResult.area :=
         estimatedArea (totalArea mask)
           (count_pixels (drawImage mask)
              (fold_left (drawPoint b (width mask)) sampled (drawImage mask)))
           (length sampled);
       CalculationResult.points := sampled;
       CalculationResult.originalImage := mask;
       CalculationResult.modifiedImage :=
         {| width := width mask; height := height mask;
            bitmap := fold_left (drawPoint b (width mask)) sampled
                        (drawImage mask) |} |}.
  exists (count_pixels (drawImage mask)
            (fold_left (drawPoint b (width mask)) sampled (drawImage mask))).
  split; [reflexivity|].
  unfold navigateToCalculate.
  cbn [points canvas_width canvas_height canvas_pixels Image state_points].
  fold mask.
  assert (Hget : getPointsInside b sampled mask
                 = Return ({| pixels := fold_left (drawPoint b (width mask))
                                          sampled (drawImage mask) |},
                           count_pixels (drawImage mask)
                             (fold_left (drawPoint b (width mask)) sampled
                                (drawImage mask)))).
  { rewrite Estimator.getPointsInside_spec, Hov. cbn [mask width height].
    destruct (N.eqb_spec (width img) 0) as [?|_]; [contradiction|].
    destruct (N.eqb_spec (height img) 0) as [?|_]; [contradiction|].
    reflexivity. }
  split.
  { unfold CalculateAreaComponent.onNavigation, bind, ret.
    rewrite Estimator.getResults_spec.
    cbn [CalculationInput.image CalculationInput.points Image state_points].
    destruct (Nat.ltb_spec (length sampled) 3) as [?|_]; [lia|].
    rewrite Hget, Hex. reflexivity. }
  split; [reflexivity|]. split; [reflexivity|]. split; [exact Hcount|].
  split; [rewrite Hget; reflexivity|]. split.
  - pose proof (Estimator.count_pixels_le_black (drawImage mask)
                  (fold_left (drawPoint b (width mask)) sampled
                     (drawImage mask))) as Hle.
    assert (Hblack : count_black (drawImage mask)
                     = count_stain (drawImage img))
      by (rewrite Hdraw; apply UploadFacts.count_black_binarized).
    rewrite Hblack in Hle. exact Hle.
  - reflexivity.
Qed.

(** The 2 x 1 image of one bright and one dark pixel, three points. *)
Lemma upload_then_estimate_witness :
  exists (c' : t) (pointsInside : Z),
    onImageLoad (fun _ => 0.5%float)
      {| width := 2; height := 1;
         bitmap := [(250, 240, 230, 255); (12, 40, 250, 255)] |}
      {| canvas_width := 300; canvas_height := 150; canvas_pixels := [];
         imageLoaded := false; showButton := false; showSlider := false;
         numberPoints := Some 3; points := [] |}
    = (Return tt, c') /\
    pointsInside_of
      (getPointsInside reference_browser (points c')
         (Image (navigateToCalculate c')))
    = Some pointsInside /\
    0 <= pointsInside <= 1.
Proof.
  destruct (upload_then_estimate reference_browser (fun _ => 0.5%float)
              {| width := 2; height := 1;
                 bitmap := [(250, 240, 230, 255); (12, 40, 250, 255)] |}
              {| canvas_width := 300; canvas_height := 150;
                 canvas_pixels := [];
                 imageLoaded := false; showButton := false;
                 showSlider := false;
                 numberPoints := Some 3; points := [] |}
              initial 3)
    as (c' & result & k & Hrun & _ & _ & _ & _ & Hk & Hle & _).
  - discriminate.
  - discriminate.
  - reflexivity.
  - lia.
  - reflexivity.
  - reflexivity.
  - exists c', k. split; [exact Hrun|]. split; [exact Hk|].
    exact Hle.
Defined.

End PipelineProperties.
